(** * bed_lookup: gene lookup from a BED file

    A shallow embedding of [bed_lookup/_bed_lookup.pyx] and the properties
    its specification states about it.

    The embedding follows the source: [BedFile.__init__] measures the
    file with [wc -l] and chooses between the dictionary index
    ([_init_dict], [_lookup_dict]) and the sqlite store ([_init_sqlite],
    [_lookup_sqlite]); [BedFile.lookup] dispatches on [_type].

    Conventions.
    - Text is ASCII: a Python [str] and the [bytes] it encodes to are the
      same [string], so [encode] and [decode] are the identity.
    - A C [long] is 64 bits wide (LP64).
    - The interpreter is a current CPython: [int] of a string and [str]
      of an integer go through 4300 digits at most
      ([sys.int_info.default_max_str_digits]).
    - Python exceptions are values of [exn]; a computation is a function
      from the [world] (files, databases, the output of [wc], what was
      written to [sys.stderr]) to an [outcome] and the new world. *)

From Stdlib Require Import ZArith String Ascii List Lia Bool.
From Stdlib Require Import Floats.SpecFloat.
From Stdlib Require Import DecimalString DecimalZ.
From stdpp Require Import gmap strings list.

Local Open Scope string_scope.
Local Open Scope Z_scope.

(** ** The Python runtime, as far as the module uses it *)

Module Py.

(** Exceptions raised by the interpreter, the C conversion layer and the
    sqlite3 binding. *)
Inductive exn : Type :=
  | ValueError
  | TypeError
  | OverflowError
  | IOError
  | CalledProcessError
  | OperationalError (msg : string).

(** The result of running a piece of code.  [Unmodelled] marks what is
    given no meaning here: a call into the sqlite engine with a statement
    outside the fragment of SQL that [Sqlite] below covers, and the text
    of a float; nothing is stated about it. *)
Inductive outcome (A : Type) : Type :=
  | Return (a : A)
  | Raise (e : exn)
  | Unmodelled.
Arguments Return {A} a.
Arguments Raise {A} e.
Arguments Unmodelled {A}.

(** The values a caller passes as [location]. *)
Inductive pyval : Type :=
  | PyInt (z : Z)
  | PyStr (s : string)
  | PyFloat (f : spec_float)
  | PyNone.

(** [str.isspace] on an ASCII character: TAB, LF, VT, FF, CR, the four
    separators 0x1c-0x1f and the space. *)
Definition isspace (c : ascii) : bool :=
  let n := N_of_ascii c in
  ((9 <=? n) && (n <=? 13) || (28 <=? n) && (n <=? 32))%N.

Definition isdigit (c : ascii) : bool :=
  let n := N_of_ascii c in ((48 <=? n) && (n <=? 57))%N.

Definition digit_value (c : ascii) : Z := Z.of_N (N_of_ascii c) - 48.

Definition is_empty (s : string) : bool :=
  match s with EmptyString => true | String _ _ => false end.

(** [s.rstrip()] *)
Fixpoint rstrip (s : string) : string :=
  match s with
  | EmptyString => EmptyString
  | String c s' =>
      let r := rstrip s' in
      if is_empty r && isspace c then EmptyString else String c r
  end.

(** The whitespace that [int] skips before and after a literal, the
    [Py_ISSPACE] of the C runtime: TAB, LF, VT, FF, CR and the space.  The
    separators 0x1c-0x1f, which [str.isspace] accepts, are not among
    them. *)
Definition Py_ISSPACE (c : ascii) : bool :=
  let n := N_of_ascii c in
  ((9 <=? n) && (n <=? 13) || (n =? 32))%N.

(** What [int] skips before the literal. *)
Fixpoint skip_space (s : string) : string :=
  match s with
  | EmptyString => EmptyString
  | String c s' => if Py_ISSPACE c then skip_space s' else s
  end.

(** What [int] skips after the literal. *)
Fixpoint drop_space (s : string) : string :=
  match s with
  | EmptyString => EmptyString
  | String c s' =>
      let r := drop_space s' in
      if is_empty r && Py_ISSPACE c then EmptyString else String c r
  end.

(** [s.split(sep)] for a one-character separator: never the empty list,
    one more field than there are separators. *)
Fixpoint split (sep : ascii) (s : string) : list string :=
  match s with
  | EmptyString => [EmptyString]
  | String c s' =>
      if Ascii.eqb c sep then EmptyString :: split sep s'
      else match split sep s' with
           | [] => [String c EmptyString]
           | x :: xs => String c x :: xs
           end
  end.

(** The digits of a decimal literal read left to right; [prev] tells
    whether the previous character was a digit, which is where a single
    underscore may follow and where the literal may end. *)
Fixpoint int_digits (s : string) (acc : Z) (prev : bool) : option Z :=
  match s with
  | EmptyString => if prev then Some acc else None
  | String c s' =>
      if isdigit c then int_digits s' (10 * acc + digit_value c) true
      else if Ascii.eqb c "_" && prev then int_digits s' acc false
      else None
  end.

(** [sys.int_info.default_max_str_digits]: the most digits that the
    conversions between [int] and [str] go through. *)
Definition int_max_str_digits : Z := 4300.

(** The number of digits in a text, leading zeros included, underscores
    not. *)
Fixpoint digit_count (s : string) : Z :=
  match s with
  | EmptyString => 0
  | String c s' => (if isdigit c then 1 else 0) + digit_count s'
  end.

(** The literal after the sign: refused when it has more digits than
    [int_max_str_digits]. *)
Definition int_of_digits (d : string) : option Z :=
  if int_max_str_digits <? digit_count d then None
  else int_digits d 0 false.

(** [int(s)] for a string, base 10: whitespace around the literal, an
    optional sign, digits with single underscores between them.  [None]
    is [ValueError]. *)
Definition int_of_str (s : string) : option Z :=
  match skip_space (drop_space s) with
  | String "-" d => option_map Z.opp (int_of_digits d)
  | String "+" d => int_of_digits d
  | d => int_of_digits d
  end.

(** [int(f)] for a float truncates toward zero; an infinity overflows and
    a NaN is a value error. *)
Definition int_of_float (f : spec_float) : outcome Z :=
  match f with
  | S754_zero _ => Return 0
  | S754_infinity _ => Raise OverflowError
  | S754_nan => Raise ValueError
  | S754_finite sign m e =>
      let mag := Z.shiftl (Z.pos m) e in
      Return (if sign then - mag else mag)
  end.

(** [int(v)] *)
Definition int (v : pyval) : outcome Z :=
  match v with
  | PyInt z => Return z
  | PyStr s => match int_of_str s with
               | Some z => Return z
               | None => Raise ValueError
               end
  | PyFloat f => int_of_float f
  | PyNone => Raise TypeError
  end.

(** [str(v)].  An integer of more than [int_max_str_digits] digits, that
    is one of absolute value [10 ^ int_max_str_digits] or more, is
    refused with [ValueError].  The text of a float is produced by the
    runtime's shortest round-trip printer, which is not modelled. *)
Definition str (v : pyval) : outcome string :=
  match v with
  | PyInt z =>
      if 10 ^ int_max_str_digits <=? Z.abs z then Raise ValueError
      else Return (NilZero.string_of_int (Z.to_int z))
  | PyStr s => Return s
  | PyFloat _ => Unmodelled
  | PyNone => Return "None"
  end.

(** [prefix + v] for a [str] prefix: only a [str] can be appended. *)
Definition str_add (prefix : string) (v : pyval) : outcome string :=
  match v with
  | PyStr s => Return (prefix +:+ s)
  | _ => Raise TypeError
  end.

(** The range of a C [long]. *)
Definition LONG_MIN : Z := - 2 ^ 63.
Definition LONG_MAX : Z := 2 ^ 63 - 1.

(** Assigning a Python integer to a [cdef long]. *)
Definition to_long (z : Z) : outcome Z :=
  if (LONG_MIN <=? z) && (z <=? LONG_MAX) then Return z
  else Raise OverflowError.

(** [str.encode()] and [string.decode()] on ASCII text. *)
Definition encode (s : string) : string := s.
Definition decode (s : string) : string := s.

End Py.

Import Py.

(** Sequencing of pure code that may raise. *)
Definition obind {A B} (c : outcome A) (k : A -> outcome B) : outcome B :=
  match c with
  | Return a => k a
  | Raise e => Raise e
  | Unmodelled => Unmodelled
  end.

Declare Scope py_scope.
Delimit Scope py_scope with py.
Notation "'let?' x ':=' c 'in' k" := (obind c (fun x => k))
  (at level 10, x name, c at level 100, k at level 200) : py_scope.

(** ** The sqlite engine, as far as the module's statements use it

    A database file holds tables of [(name text, start int, end int)] rows
    in creation order and the indexes created on them.  Names of tables and
    indexes compare without regard to ASCII case, as in sqlite.  Only
    statements whose spliced texts are plain are given a meaning: names
    without a quote character, bounds and locations that are integer
    literals in the 64-bit range, no clash between the names created. *)

Module Sqlite.

Record row : Type := { row_name : string; row_start : Z; row_end : Z }.

Record database : Type := {
  tables : list (string * list row);
  indexes : list (string * string)   (* index name, table it is on *)
}.

Definition empty : database := {| tables := []; indexes := [] |}.

Definition lower_ascii (c : ascii) : ascii :=
  let n := N_of_ascii c in
  if ((65 <=? n) && (n <=? 90))%N then ascii_of_N (n + 32) else c.

Fixpoint lower (s : string) : string :=
  match s with
  | EmptyString => EmptyString
  | String c s' => String (lower_ascii c) (lower s')
  end.

Definition same_name (a b : string) : bool := String.eqb (lower a) (lower b).

Fixpoint has_quote (s : string) : bool :=
  match s with
  | EmptyString => false
  | String c s' => Ascii.eqb c "'" || has_quote s'
  end.

(** A text that can stand between single quotes as a name. *)
Definition plain_name (s : string) : bool :=
  negb (is_empty s) && negb (has_quote s)
  && negb (String.prefix "sqlite_" (lower s)).

(** A text that can stand between single quotes as a text value. *)
Definition plain_text (s : string) : bool := negb (has_quote s).

Fixpoint all_digits (s : string) : bool :=
  match s with
  | EmptyString => true
  | String c s' => isdigit c && all_digits s'
  end.

(** An integer literal: digits, possibly after a minus sign, with a value
    that fits 64 bits. *)
Definition int_literal (s : string) : option Z :=
  let in_range z := if (LONG_MIN <=? z) && (z <=? LONG_MAX) then Some z else None in
  match s with
  | String "-" d =>
      if all_digits d then
        match int_digits d 0 false with
        | Some z => in_range (- z)
        | None => None
        end
      else None
  | d =>
      if all_digits d then
        match int_digits d 0 false with
        | Some z => in_range z
        | None => None
        end
      else None
  end.

Definition find_table (db : database) (t : string) : option (list row) :=
  snd <$> List.find (fun e => same_name (fst e) t) (tables db).

Definition name_in_use (db : database) (n : string) : bool :=
  existsb (fun e => same_name (fst e) n) (tables db)
  || existsb (fun e => same_name (fst e) n) (indexes db).

Definition has_index (db : database) (i t : string) : bool :=
  existsb (fun e => same_name (fst e) i && same_name (snd e) t) (indexes db).

(** Rows in the order of an index on [(start, end)]: by start, then by
    end, then by age. *)
Definition index_le (a b : row) : bool :=
  (row_start a <? row_start b)
  || ((row_start a =? row_start b) && (row_end a <=? row_end b)).

Fixpoint index_insert (r : row) (rs : list row) : list row :=
  match rs with
  | [] => [r]
  | r' :: rs' => if index_le r' r then r' :: index_insert r rs' else r :: rs
  end.

Definition index_order (rs : list row) : list row :=
  fold_left (fun acc r => index_insert r acc) rs [].

(** [p BETWEEN start AND end] is [p >= start AND p <= end]. *)
Definition between (p : Z) (r : row) : bool :=
  (row_start r <=? p) && (p <=? row_end r).

(** [SELECT name FROM 't' INDEXED BY 'i' WHERE loc BETWEEN start AND end] *)
Definition select_between (db : database) (t i loc : string)
  : outcome (list string) :=
  if negb (plain_name t && plain_name i) then Unmodelled else
  match int_literal loc with
  | None => Unmodelled
  | Some p =>
      match find_table db t with
      | None => Raise (OperationalError ("no such table: " +:+ t))
      | Some rows =>
          if has_index db i t
          then Return (row_name <$> List.filter (between p) (index_order rows))
          else Raise (OperationalError ("no such index: " +:+ i))
      end
  end.

(** [SELECT * FROM sqlite_master WHERE name ='t' and type='table'] has a
    row: the comparison with the stored name is exact. *)
Definition table_listed (db : database) (t : string) : bool :=
  existsb (fun e => String.eqb (fst e) t) (tables db).

(** [CREATE TABLE 't' (name text, start int, end int)] *)
Definition create_table (db : database) (t : string) : outcome database :=
  if plain_name t && negb (name_in_use db t)
  then Return {| tables := (tables db ++ [(t, [])])%list; indexes := indexes db |}
  else Unmodelled.

(** [INSERT INTO 't' VALUES ('name','start','end')]: the two bounds are
    stored in integer columns. *)
Definition insert_row (db : database) (t nm st en : string) : outcome database :=
  if negb (plain_name t && plain_text nm) then Unmodelled else
  match int_literal st, int_literal en, find_table db t with
  | Some s, Some e, Some _ =>
      let r := {| row_name := nm; row_start := s; row_end := e |} in
      Return {| tables :=
                  (fun te : string * list row =>
                     if same_name (fst te) t
                             then (fst te, (snd te ++ [r])%list) else te)
                  <$> tables db;
                indexes := indexes db |}
  | _, _, _ => Unmodelled
  end.

(** [CREATE INDEX 'i' ON 't' (start, end)] *)
Definition create_index (db : database) (i t : string) : outcome database :=
  if plain_name i && plain_name t && negb (name_in_use db i)
     && bool_decide (is_Some (find_table db t))
  then Return {| tables := tables db; indexes := (indexes db ++ [(i, t)])%list |}
  else Unmodelled.

End Sqlite.

(** ** The world the module runs in *)

Record world : Type := {
  (** text files, by path: the lines that iterating over the open file
      yields, each with its terminator *)
  files : gmap string (list string);
  (** sqlite database files, by path *)
  databases : gmap string Sqlite.database;
  (** what [check_output(['wc', '-l', path])] returns *)
  wc_l : string -> outcome string;
  (** what has been written to [sys.stderr], oldest first *)
  stderr : list string
}.

(** Code that reads and changes the world and may raise. *)
Definition M (A : Type) : Type := world -> outcome A * world.

Definition ret {A} (a : A) : M A := fun w => (Return a, w).

Definition bind {A B} (c : M A) (k : A -> M B) : M B :=
  fun w =>
    match c w with
    | (Return a, w') => k a w'
    | (Raise e, w') => (Raise e, w')
    | (Unmodelled, w') => (Unmodelled, w')
    end.

Definition lift {A} (o : outcome A) : M A := fun w => (o, w).

Notation "'let!' x ':=' c 'in' k" := (bind c (fun x => k))
  (at level 10, x name, c at level 100, k at level 200) : py_scope.
Notation "c ';;' k" := (bind c (fun _ => k))
  (at level 100, k at level 200, right associativity) : py_scope.

Local Open Scope py_scope.

(** [sys.stderr.write(s)] *)
Definition stderr_write (s : string) : M unit :=
  fun w => (Return tt,
            {| files := files w; databases := databases w; wc_l := wc_l w;
               stderr := (stderr w ++ [s])%list |}).

(** [open(path)] followed by iteration over the lines *)
Definition open_ (path : string) : M (list string) :=
  fun w => match files w !! path with
           | Some ls => (Return ls, w)
           | None => (Raise IOError, w)
           end.

(** [os.path.exists(path)] *)
Definition path_exists (path : string) : M bool :=
  fun w => (Return (bool_decide (is_Some (databases w !! path))
                    || bool_decide (is_Some (files w !! path))), w).

(** [sub(['wc', '-l', path])] *)
Definition sub_wc_l (path : string) : M string :=
  fun w => (wc_l w path, w).

(** Writing a database file. *)
Definition store (path : string) (db : Sqlite.database) : M unit :=
  fun w => (Return tt,
            {| files := files w; databases := <[path := db]> (databases w);
               wc_l := wc_l w; stderr := stderr w |}).

(** Running a query on the database behind a connection. *)
Definition query {A} (conn : string) (q : Sqlite.database -> outcome A) : M A :=
  fun w => match databases w !! conn with
           | Some db => (q db, w)
           | None => (Unmodelled, w)
           end.

Definition TAB : ascii := "009".
Definition LF : string := String "010" EmptyString.

(** ** The module *)

(** [_max_len = 1000000] *)
Definition _max_len : Z := 1000000.

(** [cdef struct StartEnd: long start, end; string name] *)
Record StartEnd : Type := { start : Z; end_ : Z; name : string }.

(** [cdef class VecHolder] *)
Record VecHolder : Type := { wrapped_vector : list StartEnd }.

Definition VecHolder_new : VecHolder := {| wrapped_vector := [] |}.

Definition push_back (obj : StartEnd) (self : VecHolder) : VecHolder :=
  {| wrapped_vector := (wrapped_vector self ++ [obj])%list |}.

(** A [BedFile] object after [__init__]: with [_type == 'dt'] it holds
    [_dict], with [_type == 'sq'] the connection [_conn] (and its cursor
    [_c]) to the database file. *)
Inductive BedFile : Type :=
  | Dt (_dict : gmap string VecHolder)
  | Sq (_conn : string).

Definition _type (self : BedFile) : string :=
  match self with Dt _ => "dt" | Sq _ => "sq" end.

(** [f = line.rstrip().split('\t')] *)
Definition fields (line : string) : list string := split TAB (rstrip line).

(** *** [_lookup_sqlite] *)

Definition chromosome_warning (chromosome : string) : string :=
  LF +:+ "WARNING --> Chromosome '" +:+ chromosome
     +:+ "' is not in the lookup table, lookup failed." +:+ LF.

Definition location_warning (location chromosome : string) : string :=
  LF +:+ "WARNING --> Location '" +:+ location
     +:+ "' on Chromosome '" +:+ chromosome
     +:+ "' is not in the lookup table, lookup failed." +:+ LF.

Definition _lookup_sqlite (conn chromosome location : string) : M string :=
  fun w =>
    match query conn (fun db =>
            Sqlite.select_between db chromosome
              (chromosome +:+ "_start_end") location) w with
    | (Raise (OperationalError msg), w') =>
        if String.prefix "no such table" msg
        then (stderr_write (chromosome_warning chromosome) ;; ret "") w'
        else (Raise (OperationalError msg), w')
    | (Raise e, w') => (Raise e, w')
    | (Unmodelled, w') => (Unmodelled, w')
    | (Return [], w') =>
        (stderr_write (location_warning location chromosome) ;; ret "") w'
    | (Return (answer :: _), w') => (Return answer, w')
    end.

(** *** [_lookup_dict] *)

(** The comparison of the loop body:
    [v[i]['start'] < loc < v[i]['end']]. *)
Definition covers (loc : Z) (t : StartEnd) : bool :=
  (start t <? loc) && (loc <? end_ t).

(** The [for] loop over the vector with its [break]: the value of
    [answer] after the loop, [''] when no record is hit. *)
Fixpoint scan (v : list StartEnd) (loc : Z) : string :=
  match v with
  | [] => ""
  | t :: v' => if covers loc t then decode (name t) else scan v' loc
  end.

Definition _lookup_dict (_dict : gmap string VecHolder)
    (chromosome : string) (location : pyval) : M string :=
  let! loc := lift (let? z := int location in to_long z) in
  match _dict !! chromosome with
  | None =>
      stderr_write (chromosome_warning chromosome) ;; ret ""
  | Some holder =>
      let answer := scan (wrapped_vector holder) loc in
      if is_empty answer then
        let! head := lift (str_add (LF +:+ "WARNING --> Location '") location) in
        stderr_write (head +:+ "' on Chromosome '" +:+ chromosome
                      +:+ "' is not in the lookup table, lookup failed." +:+ LF) ;;
        ret ""
      else ret answer
  end.

(** *** [lookup] *)

Definition lookup (self : BedFile) (chromosome : string) (location : pyval)
  : M string :=
  match self with
  | Sq conn =>
      let! s := lift (str location) in
      _lookup_sqlite conn chromosome s
  | Dt d => _lookup_dict d chromosome location
  end.

(** *** [_init_dict] *)

(** The body of the loop over the lines. *)
Definition index_line (d : gmap string VecHolder) (line : string)
  : outcome (gmap string VecHolder) :=
  let f := fields line in
  if (length f <? 4)%nat then Return d else
  let chr := nth 0 f "" in
  let? start := int (PyStr (nth 1 f "")) in
  let? end_ := int (PyStr (nth 2 f "")) in
  let gene := encode (nth 3 f "") in
  let? t_start := to_long start in
  let? t_end := to_long end_ in
  let t := {| start := t_start; end_ := t_end; name := gene |} in
  let d' := if bool_decide (is_Some (d !! chr)) then d
            else <[chr := VecHolder_new]> d in
  Return (alter (push_back t) chr d').

Fixpoint index_lines (lines : list string) (d : gmap string VecHolder)
  : outcome (gmap string VecHolder) :=
  match lines with
  | [] => Return d
  | line :: rest => let? d' := index_line d line in index_lines rest d'
  end.

Definition _init_dict (bedfile : string) : M (gmap string VecHolder) :=
  let! lines := open_ bedfile in
  lift (index_lines lines ∅).

(** *** [_init_sqlite] *)

Definition ingest_line (db : Sqlite.database) (line : string)
  : outcome Sqlite.database :=
  let f := fields line in
  if (length f <? 4)%nat then Return db else
  let? db' := (if Sqlite.table_listed db (nth 0 f "") then Return db
               else Sqlite.create_table db (nth 0 f "")) in
  Sqlite.insert_row db' (nth 0 f "") (nth 3 f "") (nth 1 f "") (nth 2 f "").

Fixpoint ingest (lines : list string) (db : Sqlite.database)
  : outcome Sqlite.database :=
  match lines with
  | [] => Return db
  | line :: rest => let? db' := ingest_line db line in ingest rest db'
  end.

Fixpoint create_indexes (ts : list string) (db : Sqlite.database)
  : outcome Sqlite.database :=
  match ts with
  | [] => Return db
  | t :: rest =>
      let? db' := Sqlite.create_index db (t +:+ "_start_end") t in
      create_indexes rest db'
  end.

Definition _init_sqlite (bedfile : string) : M string :=
  stderr_write ("INFO --> Bedfile is large, using sqlite" +:+ LF) ;;
  let db_name := bedfile +:+ ".db" in
  let! found := path_exists db_name in
  if found then
    stderr_write ("INFO --> Using existing db, if this is "
                  +:+ "not what you want, delete " +:+ db_name +:+ LF) ;;
    ret db_name
  else
    stderr_write ("INFO --> Creating sqlite database, this "
                  +:+ "may take a long time." +:+ LF) ;;
    store db_name Sqlite.empty ;;
    let! lines := open_ bedfile in
    let! db := lift (let? db := ingest lines Sqlite.empty in
                     create_indexes (fst <$> Sqlite.tables db) db) in
    store db_name db ;;
    ret db_name.

(** *** [__init__] *)

(** [int(sub(['wc', '-l', bedfile]).decode().split(' ')[0])] *)
Definition line_count (bedfile : string) : M Z :=
  let! out := sub_wc_l bedfile in
  lift (int (PyStr (nth 0 (split " " (decode out)) ""))).

Definition __init__ (bedfile : string) : M BedFile :=
  let! n := line_count bedfile in
  if n >? _max_len then
    let! conn := _init_sqlite bedfile in ret (Sq conn)
  else
    let! d := _init_dict bedfile in ret (Dt d).

(** ** Sample inputs *)

(** A line of a BED file: the fields joined by tabs, then the terminator. *)
Definition tsv (fs : list string) : string :=
  String.concat (String TAB EmptyString) fs +:+ LF.

(** The three-line file of the specification's concrete scenario. *)
Definition genes_bed : list string :=
  [ tsv ["chr1"; "100"; "200"; "GENE_A"];
    tsv ["chr1"; "150"; "250"; "GENE_B"];
    tsv ["chr2"; "10"; "20"; "GENE_C"] ].

(** A world that holds [file] under the name [genes.bed], where [wc -l]
    reports [count] lines for it, with no database and a silent stderr. *)
Definition world_with (file : list string) (count : string) : world :=
  {| files := {[ "genes.bed" := file ]};
     databases := ∅;
     wc_l := fun path =>
       if String.eqb path "genes.bed"
       then Return (count +:+ " genes.bed" +:+ LF)
       else Raise CalledProcessError;
     stderr := [] |}.

Definition genes_world : world := world_with genes_bed "3".

(** The index that [_init_dict] builds from [genes_bed]. *)
Definition genes_index : gmap string VecHolder :=
  <[ "chr2" := {| wrapped_vector :=
       [ {| start := 10; end_ := 20; name := "GENE_C" |} ] |} ]>
  (<[ "chr1" := {| wrapped_vector :=
       [ {| start := 100; end_ := 200; name := "GENE_A" |};
         {| start := 150; end_ := 250; name := "GENE_B" |} ] |} ]> ∅).

(** A file whose only record has an empty name (a fifth field keeps the
    empty fourth one from being stripped). *)
Definition unnamed_bed : list string :=
  [ tsv ["chr1"; "100"; "200"; ""; "x"] ].

Definition unnamed_index : gmap string VecHolder :=
  <[ "chr1" := {| wrapped_vector :=
       [ {| start := 100; end_ := 200; name := "" |} ] |} ]> ∅.

(** The float 160.5 in binary64: [5647091720257536 * 2^-45], a mantissa of
    53 bits. *)
Definition float_160_5 : spec_float :=
  S754_finite false 5647091720257536 (-45).

(** A text of [n] zeros followed by the digit 5. *)
Definition zeros_then_5 (n : nat) : string :=
  String.concat "" (repeat "0" n) +:+ "5".

(** The same world after [s] was written to stderr. *)
Definition wrote (w : world) (s : string) : world :=
  {| files := files w; databases := databases w; wc_l := wc_l w;
     stderr := (stderr w ++ [s])%list |}.

(** ** Notions used in the statements, and further sample inputs *)

Definition is_long (z : Z) : Prop := LONG_MIN <= z <= LONG_MAX.

(** The number of separators in a string. *)
Fixpoint count_sep (sep : ascii) (s : string) : nat :=
  match s with
  | EmptyString => 0
  | String c s' => (if Ascii.eqb c sep then 1 else 0) + count_sep sep s'
  end.

(** Every bound stored in the index is a C [long]. *)
Definition long_index (d : gmap string VecHolder) : Prop :=
  forall c holder, d !! c = Some holder ->
    Forall (fun t => is_long (start t) /\ is_long (end_ t))
           (wrapped_vector holder).

(** The chromosome and the record that a line adds to the index, if it
    gets through the loop body. *)
Definition line_record (line : string) : option (string * StartEnd) :=
  let f := fields line in
  if (length f <? 4)%nat then None else
  match int_of_str (nth 1 f ""), int_of_str (nth 2 f "") with
  | Some st, Some en =>
      Some (nth 0 f "",
            {| start := st; end_ := en; name := encode (nth 3 f "") |})
  | _, _ => None
  end.

(** The records of chromosome [c], in the order of the lines. *)
Definition records_for (c : string) (lines : list string) : list StartEnd :=
  omap (fun line =>
          match line_record line with
          | Some (c', t) => if decide (c' = c) then Some t else None
          | None => None
          end) lines.

Definition vector_of (d : gmap string VecHolder) (c : string) : list StartEnd :=
  match d !! c with
  | Some holder => wrapped_vector holder
  | None => []
  end.

(** The three-line file with a two-field line after its first line. *)
Definition genes_bed_short : list string :=
  [ tsv ["chr1"; "100"; "200"; "GENE_A"];
    tsv ["chr1"; "track"];
    tsv ["chr1"; "150"; "250"; "GENE_B"];
    tsv ["chr2"; "10"; "20"; "GENE_C"] ].

(** The three-line file with a start that is not a number in its second
    line. *)
Definition genes_bed_bad : list string :=
  [ tsv ["chr1"; "100"; "200"; "GENE_A"];
    tsv ["chr1"; "15o"; "250"; "GENE_B"];
    tsv ["chr2"; "10"; "20"; "GENE_C"] ].

(** A line of four tab-separated fields whose start is not a number and
    whose last field, the name, is empty; the three-line file with this
    line as its second line; and the index of its other two lines. *)
Definition unnamed_bad_line : string := tsv ["chr1"; "15o"; "250"; ""].

Definition genes_bed_unnamed_bad : list string :=
  [ tsv ["chr1"; "100"; "200"; "GENE_A"];
    unnamed_bad_line;
    tsv ["chr2"; "10"; "20"; "GENE_C"] ].

Definition genes_index_a_c : gmap string VecHolder :=
  <[ "chr2" := {| wrapped_vector :=
       [ {| start := 10; end_ := 20; name := "GENE_C" |} ] |} ]>
  (<[ "chr1" := {| wrapped_vector :=
       [ {| start := 100; end_ := 200; name := "GENE_A" |} ] |} ]> ∅).

Definition sqlite_notice : string :=
  "INFO --> Bedfile is large, using sqlite" +:+ LF.

Definition existing_db_notice (db_name : string) : string :=
  "INFO --> Using existing db, if this is "
  +:+ "not what you want, delete " +:+ db_name +:+ LF.

(** A world as [world_with], with a database file next to the BED file. *)
Definition world_with_db (file : list string) (count : string)
    (db : Sqlite.database) : world :=
  {| files := {[ "genes.bed" := file ]};
     databases := {[ "genes.bed.db" := db ]};
     wc_l := fun path =>
       if String.eqb path "genes.bed"
       then Return (count +:+ " genes.bed" +:+ LF)
       else Raise CalledProcessError;
     stderr := [] |}.

Definition gene_a_line : string := tsv ["chr1"; "100"; "200"; "GENE_A"].

(** What [_init_sqlite] makes of a file whose records are all that of
    GENE_A is a table [chr1] of such rows; here, with one row. *)
Definition gene_a_db : Sqlite.database :=
  {| Sqlite.tables :=
       [ ("chr1", [ {| Sqlite.row_name := "GENE_A";
                       Sqlite.row_start := 100; Sqlite.row_end := 200 |} ]) ];
     Sqlite.indexes := [ ("chr1_start_end", "chr1") ] |}.

(** A file of exactly 1,000,000 lines. *)
Definition million_lines : list string :=
  repeat gene_a_line (Z.to_nat 1000000).

(** The index that [_init_dict] builds from the one line of GENE_A. *)
Definition gene_a_index : gmap string VecHolder :=
  <[ "chr1" := {| wrapped_vector :=
       [ {| start := 100; end_ := 200; name := "GENE_A" |} ] |} ]> ∅.

(** A world at query time: the database file is there. *)
Definition gene_a_db_world : world :=
  {| files := ∅;
     databases := {[ "genes.bed.db" := gene_a_db ]};
     wc_l := fun _ => Raise CalledProcessError;
     stderr := [] |}.

(** ** Further notions and sample inputs *)

(** No chromosome is a key of the index without a record under it. *)
Definition nonempty_index (d : gmap string VecHolder) : Prop :=
  forall c holder, d !! c = Some holder -> wrapped_vector holder <> [].

(** Every character of the text is whitespace in the sense of
    [str.isspace]. *)
Fixpoint all_space (s : string) : bool :=
  match s with
  | EmptyString => true
  | String c s' => isspace c && all_space s'
  end.

(** The three-line file with a fourth line: a second record of [chr2]. *)
Definition genes_bed_more : list string :=
  (genes_bed ++ [ tsv ["chr2"; "5"; "30"; "GENE_D"] ])%list.

(** The index that [_init_dict] builds from [genes_bed_more]. *)
Definition genes_index_more : gmap string VecHolder :=
  <[ "chr2" := {| wrapped_vector :=
       [ {| start := 10; end_ := 20; name := "GENE_C" |};
         {| start := 5; end_ := 30; name := "GENE_D" |} ] |} ]>
  (<[ "chr1" := {| wrapped_vector :=
       [ {| start := 100; end_ := 200; name := "GENE_A" |};
         {| start := 150; end_ := 250; name := "GENE_B" |} ] |} ]> ∅).

(** The three-line file with two more columns, a score and a strand, on
    its first line. *)
Definition genes_bed_wide : list string :=
  [ tsv ["chr1"; "100"; "200"; "GENE_A"; "0"; "+"];
    tsv ["chr1"; "150"; "250"; "GENE_B"];
    tsv ["chr2"; "10"; "20"; "GENE_C"] ].

(** The three-line file with a carriage return before the terminator of
    its first line and blanks after the name. *)
Definition genes_bed_crlf : list string :=
  [ "chr1" +:+ String TAB "100" +:+ String TAB "200" +:+ String TAB "GENE_A"
      +:+ String " " (String " " (String "013" LF));
    tsv ["chr1"; "150"; "250"; "GENE_B"];
    tsv ["chr2"; "10"; "20"; "GENE_C"] ].

(** The lines of [chr2] before those of [chr1]. *)
Definition genes_bed_swapped : list string :=
  [ tsv ["chr2"; "10"; "20"; "GENE_C"];
    tsv ["chr1"; "100"; "200"; "GENE_A"];
    tsv ["chr1"; "150"; "250"; "GENE_B"] ].

Definition genes_index_swapped : gmap string VecHolder :=
  <[ "chr1" := {| wrapped_vector :=
       [ {| start := 100; end_ := 200; name := "GENE_A" |};
         {| start := 150; end_ := 250; name := "GENE_B" |} ] |} ]>
  (<[ "chr2" := {| wrapped_vector :=
       [ {| start := 10; end_ := 20; name := "GENE_C" |} ] |} ]> ∅).

(** An index with a one-base record, [SNP_1] at 160-161, before GENE_A,
    and the index without it. *)
Definition snp_index : gmap string VecHolder :=
  <[ "chr1" := {| wrapped_vector :=
       [ {| start := 160; end_ := 161; name := "SNP_1" |};
         {| start := 100; end_ := 200; name := "GENE_A" |} ] |} ]> ∅.

Definition no_snp_index : gmap string VecHolder :=
  <[ "chr1" := {| wrapped_vector :=
       [ {| start := 100; end_ := 200; name := "GENE_A" |} ] |} ]> ∅.

(** A world where [wc -l] pads its count with blanks, as the BSD
    [wc] does. *)
Definition padded_wc_world : world :=
  {| files := {[ "genes.bed" := genes_bed ]};
     databases := ∅;
     wc_l := fun _ => Return ("       3 genes.bed" +:+ LF);
     stderr := [] |}.

(** The row that the sqlite store keeps for a record. *)
Definition row_of (t : StartEnd) : Sqlite.row :=
  {| Sqlite.row_name := decode (name t);
     Sqlite.row_start := start t;
     Sqlite.row_end := end_ t |}.

(** The rows of the table whose name is exactly [c]. *)
Definition exact_table (db : Sqlite.database) (c : string)
  : option (list Sqlite.row) :=
  snd <$> List.find (fun e => String.eqb (fst e) c) (Sqlite.tables db).

(** The database and the dictionary hold the same records: a table for
    each key, with the rows of the records under the key, in their
    order. *)
Definition same_records (db : Sqlite.database) (d : gmap string VecHolder)
  : Prop :=
  forall c, exact_table db c
            = (fun holder => row_of <$> wrapped_vector holder) <$> d !! c.

(** Table names that differ differ in more than case. *)
Definition distinct_tables (db : Sqlite.database) : Prop :=
  forall e1 e2, In e1 (Sqlite.tables db) -> In e2 (Sqlite.tables db) ->
    Sqlite.same_name (fst e1) (fst e2) = true -> fst e1 = fst e2.

(** No character of the text is whitespace. *)
Fixpoint no_space (s : string) : bool :=
  match s with
  | EmptyString => true
  | String c s' => negb (isspace c) && no_space s'
  end.

(** The database serves the dictionary's records: the same records, table
    names that differ in more than case, and for every chromosome of the
    dictionary the index that the query names. *)
Definition stores_agree (db : Sqlite.database) (d : gmap string VecHolder)
  : Prop :=
  same_records db d
  /\ distinct_tables db
  /\ forall c, is_Some (d !! c) ->
       Sqlite.has_index db (c +:+ "_start_end") c = true.

(** A bound that sqlite and [int] read alike: an integer literal for
    sqlite (digits, possibly after a minus sign, a value in the 64-bit
    range) with no more digits than [int] goes through. *)
Definition plain_bound (s : string) : bool :=
  bool_decide (is_Some (Sqlite.int_literal s))
  && (digit_count s <=? int_max_str_digits).

(** A line whose texts the statements of [_init_sqlite] can take as they
    are: fewer than four fields, or a chromosome that can stand as a table
    name, a name without a quote character and two plain bounds. *)
Definition plain_line (line : string) : bool :=
  let f := fields line in
  (length f <? 4)%nat
  || (Sqlite.plain_name (nth 0 f "") && Sqlite.plain_text (nth 3 f "")
      && plain_bound (nth 1 f "") && plain_bound (nth 2 f "")).

(** What [_init_sqlite] makes of the three-line file. *)
Definition genes_db : Sqlite.database :=
  {| Sqlite.tables :=
       [ ("chr1", [ {| Sqlite.row_name := "GENE_A";
                       Sqlite.row_start := 100; Sqlite.row_end := 200 |};
                    {| Sqlite.row_name := "GENE_B";
                       Sqlite.row_start := 150; Sqlite.row_end := 250 |} ]);
         ("chr2", [ {| Sqlite.row_name := "GENE_C";
                       Sqlite.row_start := 10; Sqlite.row_end := 20 |} ]) ];
     Sqlite.indexes :=
       [ ("chr1_start_end", "chr1"); ("chr2_start_end", "chr2") ] |}.

(** The world after [_init_sqlite] has run on the three-line file, had
    [wc -l] reported a count above [_max_len]. *)
Definition genes_db_world : world :=
  {| files := {[ "genes.bed" := genes_bed ]};
     databases := {[ "genes.bed.db" := genes_db ]};
     wc_l := fun _ => Raise CalledProcessError;
     stderr := [] |}.

(** A database with the table of [chr1] and no index yet. *)
Definition unindexed_db : Sqlite.database :=
  {| Sqlite.tables :=
       [ ("chr1", [ {| Sqlite.row_name := "GENE_A";
                       Sqlite.row_start := 100; Sqlite.row_end := 200 |} ]) ];
     Sqlite.indexes := [] |}.

Definition unindexed_db_world : world :=
  {| files := ∅;
     databases := {[ "genes.bed.db" := unindexed_db ]};
     wc_l := fun _ => Raise CalledProcessError;
     stderr := [] |}.

(** The test of [to_long], as a boolean. *)
Definition in_long (z : Z) : bool := (LONG_MIN <=? z) && (z <=? LONG_MAX).

(** The lines that the loop of [_init_dict] gets through: those with
    fewer than four fields, and those whose second and third field are
    integers in the range of a C long. *)
Definition line_accepted (line : string) : bool :=
  let f := fields line in
  (length f <? 4)%nat
  || match int_of_str (nth 1 f ""), int_of_str (nth 2 f "") with
     | Some st, Some en => in_long st && in_long en
     | _, _ => false
     end.

(** The three-line file with an end beyond the range of a C long in its
    last line. *)
Definition genes_bed_huge : list string :=
  [ tsv ["chr1"; "100"; "200"; "GENE_A"];
    tsv ["chr1"; "150"; "250"; "GENE_B"];
    tsv ["chr2"; "10"; "9223372036854775808"; "GENE_C"] ].

(** ** Properties of the runtime functions *)

Lemma to_long_ok (z : Z) : is_long z -> to_long z = Return z.
Proof.
  unfold is_long, to_long. intros [Hlo Hhi].
  apply Z.leb_le in Hlo. apply Z.leb_le in Hhi.
  now rewrite Hlo, Hhi.
Qed.

Lemma to_long_return (z z' : Z) :
  to_long z = Return z' -> z' = z /\ is_long z.
Proof.
  unfold to_long, is_long.
  destruct (LONG_MIN <=? z) eqn:Hlo; destruct (z <=? LONG_MAX) eqn:Hhi;
    simpl; intros H; inversion H; subst.
  apply Z.leb_le in Hlo. apply Z.leb_le in Hhi. auto.
Qed.

Lemma to_long_cases (z : Z) :
  to_long z = Return z \/ to_long z = Raise OverflowError.
Proof. unfold to_long. destruct (_ && _); auto. Qed.

Lemma int_of_float_cases (f : spec_float) :
  (exists z, int_of_float f = Return z)
  \/ int_of_float f = Raise OverflowError
  \/ int_of_float f = Raise ValueError.
Proof. destruct f; simpl; eauto. Qed.

(** [int] strips less than [str.rstrip] does: the unit separator 0x1f
    goes with the whitespace at the end of a line, and is no part of a
    number. *)
Example int_unit_separator :
  rstrip ("160" +:+ String "031" "") = "160"
  /\ int (PyStr ("160" +:+ String "031" "")) = Raise ValueError
  /\ int (PyStr (String "009" " 160 " +:+ LF)) = Return 160.
Proof. repeat split; vm_compute; reflexivity. Qed.

(** The digit limit of the conversions: 4300 digits are read and
    written, 4301 are not, leading zeros included. *)
Example int_digit_limit :
  int (PyStr (zeros_then_5 4299)) = Return 5
  /\ int (PyStr (zeros_then_5 4300)) = Raise ValueError
  /\ (exists s, str (PyInt (10 ^ 4300 - 1)) = Return s)
  /\ str (PyInt (10 ^ 4300)) = Raise ValueError
  /\ str (PyInt (- 10 ^ 4300)) = Raise ValueError.
Proof.
  split; [vm_compute; reflexivity|].
  split; [vm_compute; reflexivity|].
  split; [eexists; vm_compute; reflexivity|].
  split; vm_compute; reflexivity.
Qed.

(** [split] never returns the empty list. *)
Lemma split_nonempty (sep : ascii) (s : string) : split sep s <> [].
Proof.
  induction s as [|c s IH]; simpl; [discriminate|].
  destruct (Ascii.eqb c sep); [discriminate|].
  destruct (split sep s); discriminate.
Qed.

Lemma length_split (sep : ascii) (s : string) :
  length (split sep s) = S (count_sep sep s).
Proof.
  induction s as [|c s IH]; simpl; [reflexivity|].
  destruct (Ascii.eqb c sep); simpl; [now rewrite IH|].
  destruct (split sep s) eqn:E; [now apply split_nonempty in E|].
  simpl in *. exact IH.
Qed.

Lemma count_sep_rstrip (sep : ascii) (s : string) :
  (count_sep sep (rstrip s) <= count_sep sep s)%nat.
Proof.
  induction s as [|c s IH]; simpl; [lia|].
  destruct (is_empty (rstrip s) && isspace c); simpl; lia.
Qed.

(** Stripping trailing whitespace never adds a field. *)
Lemma length_fields_le (line : string) :
  (length (fields line) <= length (split TAB line))%nat.
Proof.
  unfold fields. rewrite !length_split.
  pose proof (count_sep_rstrip TAB line). lia.
Qed.

(** ** The dictionary query *)

Lemma covers_iff (loc : Z) (t : StartEnd) :
  covers loc t = true <-> start t < loc < end_ t.
Proof. unfold covers. rewrite andb_true_iff, !Z.ltb_lt. tauto. Qed.

(** The loop stops at the first record that covers the position. *)
Lemma scan_find (v : list StartEnd) (loc : Z) :
  scan v loc = match List.find (covers loc) v with
               | Some t => decode (name t)
               | None => ""
               end.
Proof.
  induction v as [|t v IH]; simpl; [reflexivity|].
  destruct (covers loc t); [reflexivity | exact IH].
Qed.

Lemma scan_none (v : list StartEnd) (loc : Z) :
  Forall (fun t => covers loc t = false) v -> scan v loc = "".
Proof.
  induction 1 as [|t v Ht _ IH]; simpl; [reflexivity|].
  now rewrite Ht.
Qed.

Section LookupDict.

Variable d : gmap string VecHolder.
Variable chromosome : string.
Variable w : world.

(** A location that [int] or the conversion to [long] rejects ends the
    call before the index is consulted. *)
Lemma lookup_dict_int_raises (location : pyval) (e : exn) :
  int location = Raise e ->
  _lookup_dict d chromosome location w = (Raise e, w).
Proof.
  intros H. unfold _lookup_dict, bind, lift, obind. now rewrite H.
Qed.

Lemma lookup_dict_overflow (location : pyval) (z : Z) :
  int location = Return z -> ~ is_long z ->
  _lookup_dict d chromosome location w = (Raise OverflowError, w).
Proof.
  intros H Hz. unfold _lookup_dict, bind, lift, obind. rewrite H.
  destruct (to_long_cases z) as [E|E]; rewrite E; [|reflexivity].
  apply to_long_return in E. tauto.
Qed.

Lemma lookup_dict_absent (location : pyval) (p : Z) :
  int location = Return p -> is_long p ->
  d !! chromosome = None ->
  _lookup_dict d chromosome location w
  = (Return "", wrote w (chromosome_warning chromosome)).
Proof.
  intros H Hp Hc. unfold _lookup_dict, bind, lift, obind.
  rewrite H, (to_long_ok _ Hp), Hc. reflexivity.
Qed.

Lemma lookup_dict_answer (location : pyval) (p : Z) (holder : VecHolder) :
  int location = Return p -> is_long p ->
  d !! chromosome = Some holder ->
  scan (wrapped_vector holder) p <> "" ->
  _lookup_dict d chromosome location w
  = (Return (scan (wrapped_vector holder) p), w).
Proof.
  intros H Hp Hc Hs. unfold _lookup_dict, bind, lift, obind.
  rewrite H, (to_long_ok _ Hp), Hc.
  destruct (scan (wrapped_vector holder) p); [congruence | reflexivity].
Qed.

(** With an empty [answer] the call goes on to the warning, which can
    be put together only when the location was passed as a [str]. *)
Lemma lookup_dict_empty_str (s : string) (p : Z) (holder : VecHolder) :
  int (PyStr s) = Return p -> is_long p ->
  d !! chromosome = Some holder ->
  scan (wrapped_vector holder) p = "" ->
  _lookup_dict d chromosome (PyStr s) w
  = (Return "", wrote w (location_warning s chromosome)).
Proof.
  intros H Hp Hc Hs. unfold _lookup_dict, bind, lift, obind.
  rewrite H, (to_long_ok _ Hp), Hc, Hs. reflexivity.
Qed.

Lemma lookup_dict_empty_other (location : pyval) (p : Z) (holder : VecHolder) :
  (forall s, location <> PyStr s) ->
  int location = Return p -> is_long p ->
  d !! chromosome = Some holder ->
  scan (wrapped_vector holder) p = "" ->
  _lookup_dict d chromosome location w = (Raise TypeError, w).
Proof.
  intros Hl H Hp Hc Hs. unfold _lookup_dict, bind, lift, obind.
  rewrite H, (to_long_ok _ Hp), Hc, Hs.
  destruct location; try reflexivity. now destruct (Hl s).
Qed.

End LookupDict.

(** ** Building the dictionary *)

Lemma long_index_empty : long_index ∅.
Proof. intros c holder H. now rewrite lookup_empty in H. Qed.

(** What a line that passes through the loop body does to the index. *)
Lemma index_line_return (d d' : gmap string VecHolder) (line : string) :
  index_line d line = Return d' ->
  ((length (fields line) < 4)%nat /\ d' = d)
  \/ exists st en,
       (4 <= length (fields line))%nat
       /\ int_of_str (nth 1 (fields line) "") = Some st
       /\ int_of_str (nth 2 (fields line) "") = Some en
       /\ is_long st /\ is_long en
       /\ d' = alter
                 (push_back {| start := st; end_ := en;
                               name := encode (nth 3 (fields line) "") |})
                 (nth 0 (fields line) "")
                 (if bool_decide (is_Some (d !! nth 0 (fields line) ""))
                  then d else <[nth 0 (fields line) "" := VecHolder_new]> d).
Proof.
  unfold index_line, int.
  destruct (length (fields line) <? 4)%nat eqn:Hlen.
  - intros [= <-]. left. apply Nat.ltb_lt in Hlen. auto.
  - apply Nat.ltb_ge in Hlen.
    destruct (int_of_str (nth 1 (fields line) "")) as [st|]; cbn [obind];
      [|discriminate].
    destruct (int_of_str (nth 2 (fields line) "")) as [en|]; cbn [obind];
      [|discriminate].
    destruct (to_long st) as [st'| |] eqn:Est; cbn [obind]; try discriminate.
    destruct (to_long en) as [en'| |] eqn:Een; cbn [obind]; try discriminate.
    apply to_long_return in Est as [-> Hst].
    apply to_long_return in Een as [-> Hen].
    intros [= <-]. right. exists st, en. auto 10.
Qed.

Lemma index_line_long (d d' : gmap string VecHolder) (line : string) :
  long_index d -> index_line d line = Return d' -> long_index d'.
Proof.
  intros Hd H.
  apply index_line_return in H
    as [[_ ->]|(st & en & _ & _ & _ & Hst & Hen & ->)]; [exact Hd|].
  intros c holder.
  set (chr := nth 0 (fields line) "").
  destruct (decide (chr = c)) as [->|Hne].
  - rewrite lookup_alter_eq.
    case_bool_decide as Hin.
    + destruct Hin as [h Hh]. rewrite Hh. simpl. intros [= <-].
      simpl. apply Forall_app. split; [now apply (Hd c)|].
      constructor; [split; assumption | constructor].
    + rewrite lookup_insert_eq. simpl. intros [= <-]. simpl.
      constructor; [split; assumption | constructor].
  - rewrite lookup_alter_ne by assumption.
    case_bool_decide; [apply Hd|].
    rewrite lookup_insert_ne by assumption. apply Hd.
Qed.

Lemma index_lines_long (lines : list string) (d d' : gmap string VecHolder) :
  long_index d -> index_lines lines d = Return d' -> long_index d'.
Proof.
  revert d. induction lines as [|line rest IH]; simpl; intros d Hd.
  - now intros [= <-].
  - destruct (index_line d line) as [d1| |] eqn:E; simpl; try discriminate.
    apply IH. eapply index_line_long; eassumption.
Qed.

Lemma init_dict_return (bedfile : string) (w w' : world)
    (d : gmap string VecHolder) :
  _init_dict bedfile w = (Return d, w') ->
  exists lines, files w !! bedfile = Some lines
                /\ index_lines lines ∅ = Return d /\ w' = w.
Proof.
  unfold _init_dict, bind, open_, lift.
  destruct (files w !! bedfile) as [lines|]; [|discriminate].
  intros [= H <-]. eauto.
Qed.

(** The object that [__init__] hands back, when it is dictionary-backed,
    holds the index of the whole file. *)
Lemma init_dt (bedfile : string) (w w' : world) (d : gmap string VecHolder) :
  __init__ bedfile w = (Return (Dt d), w') ->
  exists lines, files w !! bedfile = Some lines
                /\ index_lines lines ∅ = Return d /\ w' = w.
Proof.
  unfold __init__, bind at 1. unfold line_count, bind, sub_wc_l, lift.
  destruct (wc_l w bedfile) as [out| |]; try discriminate.
  destruct (int _) as [n| |]; try discriminate.
  destruct (n >? _max_len).
  - destruct (_init_sqlite bedfile w) as [[conn| |] w1]; simpl; discriminate.
  - destruct (_init_dict bedfile w) as [[d1| |] w1] eqn:E; simpl; try discriminate.
    intros [= -> ->]. now apply init_dict_return.
Qed.

Lemma init_dt_long (bedfile : string) (w w' : world) (d : gmap string VecHolder) :
  __init__ bedfile w = (Return (Dt d), w') -> long_index d.
Proof.
  intros H. apply init_dt in H as (lines & _ & H & _).
  eapply index_lines_long; [apply long_index_empty | exact H].
Qed.

(** ** The constructed objects of the sample files *)

Lemma init_genes :
  __init__ "genes.bed" genes_world = (Return (Dt genes_index), genes_world).
Proof. vm_compute. reflexivity. Qed.

Lemma init_unnamed :
  __init__ "genes.bed" (world_with unnamed_bed "1")
  = (Return (Dt unnamed_index), world_with unnamed_bed "1").
Proof. vm_compute. reflexivity. Qed.

(** ** The index keeps the records of a chromosome in file order *)

Lemma index_line_vector (d d' : gmap string VecHolder) (line c : string) :
  index_line d line = Return d' ->
  vector_of d' c = (vector_of d c ++ records_for c [line])%list.
Proof.
  intros H. unfold records_for, line_record. simpl.
  apply index_line_return in H
    as [[Hlen ->]|(st & en & Hlen & Hst & Hen & _ & _ & ->)].
  - apply Nat.ltb_lt in Hlen. rewrite Hlen. now rewrite app_nil_r.
  - apply Nat.ltb_ge in Hlen. rewrite Hlen, Hst, Hen.
    unfold vector_of.
    set (chr := nth 0 (fields line) "").
    destruct (decide (chr = c)) as [->|Hne].
    + rewrite lookup_alter_eq. case_bool_decide as Hin.
      * destruct Hin as [h Hh]. now rewrite Hh.
      * rewrite lookup_insert_eq.
        destruct (d !! c) as [h|] eqn:Hh; [|reflexivity].
        destruct Hin. eauto.
    + rewrite lookup_alter_ne by assumption.
      case_bool_decide; rewrite ?lookup_insert_ne by assumption;
        now rewrite app_nil_r.
Qed.

Lemma index_lines_vector (lines : list string) (d d' : gmap string VecHolder)
    (c : string) :
  index_lines lines d = Return d' ->
  vector_of d' c = (vector_of d c ++ records_for c lines)%list.
Proof.
  revert d. induction lines as [|line rest IH]; simpl; intros d.
  - intros [= <-]. now rewrite app_nil_r.
  - destruct (index_line d line) as [d1| |] eqn:E; simpl; try discriminate.
    intros H. rewrite (IH _ H), (index_line_vector _ _ _ c E).
    rewrite <- app_assoc. f_equal.
    unfold records_for. simpl.
    destruct (line_record line) as [[c' t]|]; [|reflexivity].
    destruct (decide (c' = c)); reflexivity.
Qed.

(** The vector of a chromosome in a constructed object lists the records
    of that chromosome as the file has them, first to last. *)
Lemma init_dt_file_order (bedfile : string) (w w' : world)
    (d : gmap string VecHolder) (c : string) :
  __init__ bedfile w = (Return (Dt d), w') ->
  exists lines, files w !! bedfile = Some lines
                /\ vector_of d c = records_for c lines.
Proof.
  intros H. apply init_dt in H as (lines & Hf & H & _).
  exists lines. split; [exact Hf|].
  rewrite (index_lines_vector _ _ _ c H). unfold vector_of.
  now rewrite lookup_empty.
Qed.

(** On a constructed object, a location with integer value [p] whose
    first covering record has a name gets that name, and nothing is
    written. *)
Lemma lookup_first_match (bedfile : string) (w0 w1 w : world)
    (d : gmap string VecHolder) (chromosome : string) (holder : VecHolder)
    (location : pyval) (p : Z) (t : StartEnd) :
  __init__ bedfile w0 = (Return (Dt d), w1) ->
  d !! chromosome = Some holder ->
  int location = Return p ->
  List.find (covers p) (wrapped_vector holder) = Some t ->
  name t <> "" ->
  lookup (Dt d) chromosome location w = (Return (name t), w).
Proof.
  intros Hinit Hc Hint Hfind Hname. simpl.
  assert (Hp : is_long p).
  { apply init_dt_long in Hinit.
    destruct (find_some _ _ Hfind) as [Hin Hcov].
    apply covers_iff in Hcov.
    pose proof (Hinit _ _ Hc) as Hall.
    rewrite List.Forall_forall in Hall.
    destruct (Hall _ Hin) as [[Hlo _] [_ Hhi]].
    unfold is_long. lia. }
  assert (Hscan : scan (wrapped_vector holder) p = name t).
  { rewrite scan_find, Hfind. reflexivity. }
  rewrite (lookup_dict_answer d chromosome w location p holder Hint Hp Hc);
    rewrite Hscan; [reflexivity | exact Hname].
Qed.

(** The concrete scenario of the specification: position 160 lies in
    GENE_A and in GENE_B, and GENE_A comes first in the file. *)
Example lookup_chr1_160 :
  lookup (Dt genes_index) "chr1" (PyInt 160) genes_world
  = (Return "GENE_A", genes_world).
Proof. vm_compute. reflexivity. Qed.

Example lookup_chr1_220 :
  lookup (Dt genes_index) "chr1" (PyInt 220) genes_world
  = (Return "GENE_B", genes_world).
Proof. vm_compute. reflexivity. Qed.

(** ** C1 *)

(** C1 (as the code behaves on a record without a name).  The claim is
    that lookup returns the name of the first record with
    [start < p < end].  In the file whose only line is
    [chr1 TAB 100 TAB 200 TAB TAB x] that record has the empty name;
    [lookup("chr1", 150)] with the integer 150 does not return it: the
    empty [answer] sends the call into the warning branch, where
    [str + int] raises [TypeError].  (When the name is not empty the
    claim holds: [lookup_first_match], [lookup_chr1_160].) *)
Theorem lookup_unnamed_first_match_raises :
  __init__ "genes.bed" (world_with unnamed_bed "1")
    = (Return (Dt unnamed_index), world_with unnamed_bed "1")
  /\ List.find (covers 150) (vector_of unnamed_index "chr1")
     = Some {| start := 100; end_ := 200; name := "" |}
  /\ lookup (Dt unnamed_index) "chr1" (PyInt 150) (world_with unnamed_bed "1")
     = (Raise TypeError, world_with unnamed_bed "1").
Proof. repeat split; vm_compute; reflexivity. Qed.

(** ** C2 *)

(** A position on a bound of a record is not covered by that record. *)
Lemma covers_bound (t : StartEnd) (p : Z) :
  p = start t \/ p = end_ t -> covers p t = false.
Proof.
  unfold covers. intros [->| ->].
  - now rewrite Z.ltb_irrefl.
  - now rewrite Z.ltb_irrefl, andb_false_r.
Qed.

Section Boundary.

Variables (bedfile : string) (w0 w1 w : world).
Variable d : gmap string VecHolder.
Variables (chromosome : string) (holder : VecHolder).
Variables (t : StartEnd) (p : Z).

Hypothesis constructed : __init__ bedfile w0 = (Return (Dt d), w1).
Hypothesis present : d !! chromosome = Some holder.
Hypothesis stored : In t (wrapped_vector holder).
Hypothesis on_bound : p = start t \/ p = end_ t.
Hypothesis outside_all :
  Forall (fun t' => covers p t' = false) (wrapped_vector holder).

Lemma bound_is_long : is_long p.
Proof.
  pose proof (init_dt_long _ _ _ _ constructed _ _ present) as Hall.
  rewrite List.Forall_forall in Hall.
  destruct (Hall _ stored) as [Hs He].
  destruct on_bound as [->| ->]; assumption.
Qed.

(** Passed as a string, a boundary position is answered with the empty
    string and the position warning. *)
Lemma lookup_boundary_str (s : string) :
  int_of_str s = Some p ->
  lookup (Dt d) chromosome (PyStr s) w
  = (Return "", wrote w (location_warning s chromosome)).
Proof.
  intros Hs. simpl.
  apply (lookup_dict_empty_str d chromosome w s p holder);
    [simpl; now rewrite Hs | exact bound_is_long | exact present
    | now apply scan_none].
Qed.

(** Passed as an integer, it makes the call raise. *)
Lemma lookup_boundary_int :
  lookup (Dt d) chromosome (PyInt p) w = (Raise TypeError, w).
Proof.
  simpl.
  apply (lookup_dict_empty_other d chromosome w (PyInt p) p holder);
    [discriminate | reflexivity | exact bound_is_long | exact present
    | now apply scan_none].
Qed.

End Boundary.

(** C2 (as the code behaves on an integer position).  The claim is that
    a position equal to the start or the end of a record, and inside no
    other record, is answered with the empty string.  On the three-line
    file of the specification, [lookup("chr1", 100)] with the integer
    100 raises [TypeError] instead: no record covers 100, and the warning
    of the not-found branch concatenates a [str] with the integer.  The
    same position passed as the string ["100"] gives the empty string and
    the warning. *)
Theorem lookup_boundary_int_raises :
  __init__ "genes.bed" genes_world = (Return (Dt genes_index), genes_world)
  /\ Forall (fun t => covers 100 t = false) (vector_of genes_index "chr1")
  /\ lookup (Dt genes_index) "chr1" (PyInt 100) genes_world
     = (Raise TypeError, genes_world)
  /\ lookup (Dt genes_index) "chr1" (PyStr "100") genes_world
     = (Return "", wrote genes_world (location_warning "100" "chr1")).
Proof.
  split; [exact init_genes|]. split.
  - vm_compute. repeat constructor.
  - split; vm_compute; reflexivity.
Qed.

(** ** C9 *)

(** Whether the loop found a record with an empty name or found none,
    the rest of the call sees the same empty [answer]. *)
Lemma lookup_dict_same_answer (d d' : gmap string VecHolder)
    (chromosome : string) (holder holder' : VecHolder)
    (location : pyval) (p : Z) (w : world) :
  int location = Return p ->
  d !! chromosome = Some holder ->
  d' !! chromosome = Some holder' ->
  scan (wrapped_vector holder) p = scan (wrapped_vector holder') p ->
  _lookup_dict d chromosome location w = _lookup_dict d' chromosome location w.
Proof.
  intros Hint Hc Hc' Hs. unfold _lookup_dict, bind, lift, obind.
  rewrite Hint. destruct (to_long p) as [loc| |] eqn:E; try reflexivity.
  apply to_long_return in E as [-> _]. now rewrite Hc, Hc', Hs.
Qed.

(** C9 (as the code behaves on an integer position).  The claim is that
    a first covering record with the empty name makes lookup return the
    empty string and emit the position warning.  With the file whose only
    line is [chr1 TAB 100 TAB 200 TAB TAB x], [lookup("chr1", 150)] with
    the integer 150 raises [TypeError] while the warning is put together;
    with the string ["150"] it returns the empty string and writes the
    warning, as the claim says. *)
Theorem lookup_unnamed_match_int_raises :
  name <$> List.find (covers 150) (vector_of unnamed_index "chr1") = Some ""
  /\ lookup (Dt unnamed_index) "chr1" (PyInt 150) (world_with unnamed_bed "1")
     = (Raise TypeError, world_with unnamed_bed "1")
  /\ lookup (Dt unnamed_index) "chr1" (PyStr "150") (world_with unnamed_bed "1")
     = (Return "",
        wrote (world_with unnamed_bed "1") (location_warning "150" "chr1")).
Proof. repeat split; vm_compute; reflexivity. Qed.

(** ** C5 *)

(** C5 as stated fails: the chromosome [chr3] is absent from the index of
    the three-line file, yet [lookup("chr3", 2**63)] raises
    [OverflowError] (the position does not fit the [long] it is assigned
    to) instead of returning the empty string, and [lookup("chr3", "abc")]
    raises [ValueError]: the conversion of the location comes before the
    look at the index. *)
Lemma lookup_absent_chromosome_overflow :
  genes_index !! "chr3" = None
  /\ lookup (Dt genes_index) "chr3" (PyInt (2 ^ 63)) genes_world
     = (Raise OverflowError, genes_world)
  /\ lookup (Dt genes_index) "chr3" (PyStr "abc") genes_world
     = (Raise ValueError, genes_world).
Proof. repeat split; vm_compute; reflexivity. Qed.

(** C5 (amended).  For a dictionary-backed object and a location whose
    integer value fits a C long: when the chromosome is not a key of the
    index, lookup returns the empty string and writes the warning that
    names the chromosome; when the chromosome is a key, no record covers
    the position and the location was passed as a string, lookup returns
    the empty string and writes the warning that names the location and
    the chromosome. *)
Theorem lookup_not_found (d : gmap string VecHolder) (chromosome : string)
    (location : pyval) (p : Z) (w : world) :
  int location = Return p -> is_long p ->
  (d !! chromosome = None ->
     lookup (Dt d) chromosome location w
     = (Return "", wrote w (chromosome_warning chromosome)))
  /\ (forall holder s,
        d !! chromosome = Some holder ->
        Forall (fun t => covers p t = false) (wrapped_vector holder) ->
        location = PyStr s ->
        lookup (Dt d) chromosome location w
        = (Return "", wrote w (location_warning s chromosome))).
Proof.
  intros Hint Hp. split.
  - intros Hc. simpl. now apply (lookup_dict_absent d chromosome w location p).
  - intros holder s Hc Hnone ->. simpl.
    apply (lookup_dict_empty_str d chromosome w s p holder);
      [exact Hint | exact Hp | exact Hc | now apply scan_none].
Qed.

Lemma lookup_not_found_witness :
  lookup (Dt genes_index) "chr3" (PyStr "5") genes_world
  = (Return "", wrote genes_world (chromosome_warning "chr3"))
  /\ lookup (Dt genes_index) "chr2" (PyStr "25") genes_world
     = (Return "", wrote genes_world (location_warning "25" "chr2")).
Proof.
  split.
  - apply (lookup_not_found genes_index "chr3" (PyStr "5") 5 genes_world).
    + vm_compute. reflexivity.
    + unfold is_long. vm_compute. split; discriminate.
    + vm_compute. reflexivity.
  - apply (lookup_not_found genes_index "chr2" (PyStr "25") 25 genes_world)
      with (holder := {| wrapped_vector :=
                  [ {| start := 10; end_ := 20; name := "GENE_C" |} ] |}).
    + vm_compute. reflexivity.
    + unfold is_long. vm_compute. split; discriminate.
    + vm_compute. reflexivity.
    + repeat constructor.
    + reflexivity.
Defined.

(** ** C10 *)

(** C10 as stated fails: the float 160.5 is neither an integer nor a
    string, and [lookup] does not raise on it.  [int] truncates it to 160,
    so on the three-line file the call returns GENE_A for [chr1], and for
    the absent [chr3] it reaches the empty-string result. *)
Lemma lookup_float_location_answers :
  int (PyFloat float_160_5) = Return 160
  /\ lookup (Dt genes_index) "chr1" (PyFloat float_160_5) genes_world
     = (Return "GENE_A", genes_world)
  /\ lookup (Dt genes_index) "chr3" (PyFloat float_160_5) genes_world
     = (Return "", wrote genes_world (chromosome_warning "chr3")).
Proof. repeat split; vm_compute; reflexivity. Qed.

(** C10 (amended).  For a dictionary-backed object, a location on which
    the integer conversion raises makes lookup raise that same error
    before the chromosome or any interval is looked at, with nothing
    written, whether or not the chromosome is in the index; for a string
    that does not parse as an integer the error is [ValueError]. *)
Theorem lookup_bad_location_raises (d : gmap string VecHolder)
    (chromosome : string) (location : pyval) (e : exn) (w : world) :
  int location = Raise e ->
  lookup (Dt d) chromosome location w = (Raise e, w)
  /\ (forall s, location = PyStr s -> e = ValueError).
Proof.
  intros H. split.
  - simpl. now apply lookup_dict_int_raises.
  - intros s ->. simpl in H.
    destruct (int_of_str s); [discriminate | now injection H as <-].
Qed.

Lemma lookup_bad_location_raises_witness :
  lookup (Dt genes_index) "chr3" (PyStr "12a") genes_world
  = (Raise ValueError, genes_world).
Proof.
  apply (lookup_bad_location_raises genes_index "chr3" (PyStr "12a")
           ValueError genes_world).
  vm_compute. reflexivity.
Defined.

(** ** C6 *)

Lemma index_line_short (d : gmap string VecHolder) (line : string) :
  (length (fields line) < 4)%nat -> index_line d line = Return d.
Proof.
  intros H. unfold index_line. apply Nat.ltb_lt in H. now rewrite H.
Qed.

(** The loop of [_init_sqlite] has the same guard. *)
Lemma ingest_line_short (db : Sqlite.database) (line : string) :
  (length (fields line) < 4)%nat -> ingest_line db line = Return db.
Proof.
  intros H. unfold ingest_line. apply Nat.ltb_lt in H. now rewrite H.
Qed.

Lemma index_lines_app (l1 l2 : list string) (d : gmap string VecHolder) :
  index_lines (l1 ++ l2) d
  = (let? d' := index_lines l1 d in index_lines l2 d').
Proof.
  revert d. induction l1 as [|line l1 IH]; intros d; simpl; [reflexivity|].
  destruct (index_line d line); simpl; auto.
Qed.

Lemma index_lines_without_short (before after : list string) (line : string)
    (d : gmap string VecHolder) :
  (length (fields line) < 4)%nat ->
  index_lines (before ++ line :: after) d = index_lines (before ++ after) d.
Proof.
  intros H. rewrite !index_lines_app.
  destruct (index_lines before d) as [d'| |]; simpl; try reflexivity.
  now rewrite index_line_short.
Qed.

(** [_init_dict] only reads: it leaves the world as it found it. *)
Lemma init_dict_world (bedfile : string) (w : world) :
  snd (_init_dict bedfile w) = w.
Proof.
  unfold _init_dict, bind, open_, lift.
  destruct (files w !! bedfile); reflexivity.
Qed.

Lemma init_dict_outcome (bedfile : string) (w : world) :
  fst (_init_dict bedfile w)
  = match files w !! bedfile with
    | Some lines => index_lines lines ∅
    | None => Raise IOError
    end.
Proof.
  unfold _init_dict, bind, open_, lift.
  destruct (files w !! bedfile) as [lines|]; [|reflexivity].
  destruct (index_lines lines ∅); reflexivity.
Qed.

(** C6.  A line with fewer than four fields is skipped silently: the
    loop body leaves the index as it is, so the build of a file with such
    a line ends exactly as the build of the file without it (the same
    index, or the same failure caused by another line), and the build
    writes nothing: the world, stderr included, is as before.  The fields
    are those of the code, [line.rstrip().split('\t')]; by
    [length_fields_le] a line that has fewer than four fields before the
    trailing whitespace is stripped has fewer than four after. *)
Theorem short_line_skipped (bedfile : string) (w w' : world)
    (before after : list string) (line : string) :
  (length (fields line) < 4)%nat ->
  files w !! bedfile = Some (before ++ line :: after)%list ->
  files w' !! bedfile = Some (before ++ after)%list ->
  (forall d, index_line d line = Return d)
  /\ fst (_init_dict bedfile w) = fst (_init_dict bedfile w')
  /\ snd (_init_dict bedfile w) = w.
Proof.
  intros Hshort Hw Hw'. split; [|split].
  - intros d. now apply index_line_short.
  - rewrite !init_dict_outcome, Hw, Hw'.
    now apply index_lines_without_short.
  - apply init_dict_world.
Qed.

Lemma short_line_skipped_witness :
  fst (_init_dict "genes.bed" (world_with genes_bed_short "4"))
  = fst (_init_dict "genes.bed" genes_world)
  /\ snd (_init_dict "genes.bed" (world_with genes_bed_short "4"))
     = world_with genes_bed_short "4".
Proof.
  apply (short_line_skipped "genes.bed" (world_with genes_bed_short "4")
           genes_world
           [tsv ["chr1"; "100"; "200"; "GENE_A"]]
           [tsv ["chr1"; "150"; "250"; "GENE_B"];
            tsv ["chr2"; "10"; "20"; "GENE_C"]]
           (tsv ["chr1"; "track"])).
  - vm_compute. lia.
  - vm_compute. reflexivity.
  - vm_compute. reflexivity.
Defined.

(** ** C7 *)

(** The loop body never leaves the modelled fragment, and the only errors
    it raises are those of the two conversions. *)
Lemma index_line_cases (d : gmap string VecHolder) (line : string) :
  (exists d', index_line d line = Return d')
  \/ index_line d line = Raise ValueError
  \/ index_line d line = Raise OverflowError.
Proof.
  unfold index_line, int.
  destruct (length (fields line) <? 4)%nat; [eauto|].
  destruct (int_of_str (nth 1 (fields line) "")) as [st|]; cbn [obind]; [|auto].
  destruct (int_of_str (nth 2 (fields line) "")) as [en|]; cbn [obind]; [|auto].
  destruct (to_long_cases st) as [E|E]; rewrite E; cbn [obind]; [|auto].
  destruct (to_long_cases en) as [E'|E']; rewrite E'; cbn [obind]; [|auto].
  eauto.
Qed.

(** A line with four fields or more whose second or third field is not an
    integer stops the loop with [ValueError], whatever the index holds. *)
Lemma index_line_bad_bound (d : gmap string VecHolder) (line : string) :
  (4 <= length (fields line))%nat ->
  int_of_str (nth 1 (fields line) "") = None
  \/ int_of_str (nth 2 (fields line) "") = None ->
  index_line d line = Raise ValueError.
Proof.
  intros Hlen Hbad. unfold index_line, int.
  apply Nat.ltb_ge in Hlen. rewrite Hlen.
  destruct Hbad as [H|H].
  - now rewrite H.
  - rewrite H. now destruct (int_of_str (nth 1 (fields line) "")).
Qed.

Lemma index_lines_bad_bound (lines : list string) (line : string)
    (d : gmap string VecHolder) :
  In line lines ->
  (4 <= length (fields line))%nat ->
  int_of_str (nth 1 (fields line) "") = None
  \/ int_of_str (nth 2 (fields line) "") = None ->
  index_lines lines d = Raise ValueError
  \/ index_lines lines d = Raise OverflowError.
Proof.
  intros Hin Hlen Hbad. revert d.
  induction lines as [|l rest IH]; intros d; [destruct Hin|].
  simpl. destruct Hin as [->|Hin].
  - rewrite (index_line_bad_bound d line Hlen Hbad). now left.
  - destruct (index_line_cases d l) as [[d' E]|[E|E]]; rewrite E; simpl; auto.
Qed.

(** When the lines before it get through, the error is the [ValueError]
    of that line. *)
Lemma index_lines_first_bad_bound (before after : list string) (line : string)
    (d d' : gmap string VecHolder) :
  index_lines before d = Return d' ->
  (4 <= length (fields line))%nat ->
  int_of_str (nth 1 (fields line) "") = None
  \/ int_of_str (nth 2 (fields line) "") = None ->
  index_lines (before ++ line :: after) d = Raise ValueError.
Proof.
  intros Hb Hlen Hbad. rewrite index_lines_app, Hb. simpl.
  now rewrite (index_line_bad_bound d' line Hlen Hbad).
Qed.

(** With a line count at or below [_max_len], [__init__] is the
    dictionary build. *)
Lemma init_dict_branch (bedfile : string) (w : world) (n : Z) :
  fst (line_count bedfile w) = Return n -> n <= _max_len ->
  __init__ bedfile w
  = match files w !! bedfile with
    | Some lines =>
        match index_lines lines ∅ with
        | Return d => (Return (Dt d), w)
        | Raise e => (Raise e, w)
        | Unmodelled => (Unmodelled, w)
        end
    | None => (Raise IOError, w)
    end.
Proof.
  intros Hn Hle. unfold __init__, bind at 1.
  assert (Hc : line_count bedfile w = (Return n, w)).
  { revert Hn. unfold line_count, bind, sub_wc_l, lift.
    destruct (wc_l w bedfile); simpl; intros H; try discriminate.
    now rewrite H. }
  rewrite Hc.
  assert (Hgt : (n >? _max_len) = false)
    by (rewrite Z.gtb_ltb; apply Z.ltb_ge; lia).
  rewrite Hgt. unfold bind, _init_dict, bind, open_, lift, ret.
  destruct (files w !! bedfile) as [lines|]; [|reflexivity].
  destruct (index_lines lines ∅); reflexivity.
Qed.

(** C7 as stated fails: the second line of [genes_bed_unnamed_bad] has
    four tab-separated fields, [chr1], [15o], [250] and an empty name,
    and its start [15o] is not an integer; yet the index is built, from
    the other two lines, and [__init__] returns the object.  The loop
    strips the trailing whitespace of the line, the tab before the empty
    name included, before it splits: the code sees three fields and
    skips the line without looking at its bounds. *)
Lemma bad_bound_before_empty_name_builds :
  In unnamed_bad_line genes_bed_unnamed_bad
  /\ split TAB unnamed_bad_line = ["chr1"; "15o"; "250"; LF]
  /\ int (PyStr "15o") = Raise ValueError
  /\ fields unnamed_bad_line = ["chr1"; "15o"; "250"]
  /\ _init_dict "genes.bed" (world_with genes_bed_unnamed_bad "3")
     = (Return genes_index_a_c, world_with genes_bed_unnamed_bad "3")
  /\ __init__ "genes.bed" (world_with genes_bed_unnamed_bad "3")
     = (Return (Dt genes_index_a_c), world_with genes_bed_unnamed_bad "3").
Proof.
  split; [right; left; reflexivity|].
  repeat split; vm_compute; reflexivity.
Qed.

(** C7 (amended).  When the file has a line that still has at least four
    tab-separated fields after its trailing whitespace is stripped (the
    fields of the code, [line.rstrip().split('\t')]) and whose second or
    third field does not parse as an integer, building the dictionary
    fails: [_init_dict] raises the error of a conversion, nothing catches
    it, and [__init__], whenever the line count sends it to the
    dictionary build, raises it to its caller and returns no object.  (The
    error is the [ValueError] of that line unless an earlier line already
    ended the build with its own conversion error:
    [index_lines_first_bad_bound].) *)
Theorem bad_bound_fails_build (bedfile : string) (w : world)
    (lines : list string) (line : string) :
  files w !! bedfile = Some lines ->
  In line lines ->
  (4 <= length (fields line))%nat ->
  int_of_str (nth 1 (fields line) "") = None
  \/ int_of_str (nth 2 (fields line) "") = None ->
  exists e,
    (e = ValueError \/ e = OverflowError)
    /\ _init_dict bedfile w = (Raise e, w)
    /\ forall n, fst (line_count bedfile w) = Return n -> n <= _max_len ->
                 __init__ bedfile w = (Raise e, w).
Proof.
  intros Hf Hin Hlen Hbad.
  assert (H : exists e, (e = ValueError \/ e = OverflowError)
                        /\ index_lines lines ∅ = Raise e).
  { destruct (index_lines_bad_bound lines line ∅ Hin Hlen Hbad) as [E|E];
      eauto. }
  destruct H as (e & He & E). exists e. split; [exact He|]. split.
  - unfold _init_dict, bind, open_, lift. now rewrite Hf, E.
  - intros n Hn Hle.
    now rewrite (init_dict_branch bedfile w n Hn Hle), Hf, E.
Qed.

Lemma bad_bound_fails_build_witness :
  exists e,
    (e = ValueError \/ e = OverflowError)
    /\ _init_dict "genes.bed" (world_with genes_bed_bad "3")
       = (Raise e, world_with genes_bed_bad "3")
    /\ __init__ "genes.bed" (world_with genes_bed_bad "3")
       = (Raise e, world_with genes_bed_bad "3").
Proof.
  destruct (bad_bound_fails_build "genes.bed" (world_with genes_bed_bad "3")
              genes_bed_bad (tsv ["chr1"; "15o"; "250"; "GENE_B"]))
    as (e & He & Hbuild & Hinit).
  - vm_compute. reflexivity.
  - right. left. reflexivity.
  - vm_compute. lia.
  - left. vm_compute. reflexivity.
  - exists e. split; [exact He|]. split; [exact Hbuild|].
    apply (Hinit 3).
    + vm_compute. reflexivity.
    + vm_compute. discriminate.
Defined.

(** Trailing whitespace is stripped before the line is split, so a line
    that ends in a tab has one field less than it has tabs: such a line
    with a malformed bound is skipped, not parsed. *)
Example fields_trailing_tab :
  fields (tsv ["chr1"; "15o"; "250"; ""]) = ["chr1"; "15o"; "250"].
Proof. vm_compute. reflexivity. Qed.

(** ** C8 *)

(** C8.  The dictionary build is a function of the file's contents: in
    two worlds that hold the same lines under [bedfile] it ends the same
    way (the same index or the same error), and it leaves the world, and
    so the file, as it was, so that a second build sees what the first
    saw.  The two indexes answer every query alike: the same returned
    string or error and the same text written. *)
Theorem build_pure (bedfile : string) (w w' : world) :
  files w !! bedfile = files w' !! bedfile ->
  fst (_init_dict bedfile w) = fst (_init_dict bedfile w')
  /\ snd (_init_dict bedfile w) = w
  /\ forall d d' chromosome location wq,
       fst (_init_dict bedfile w) = Return d ->
       fst (_init_dict bedfile w') = Return d' ->
       lookup (Dt d) chromosome location wq
       = lookup (Dt d') chromosome location wq.
Proof.
  intros Hsame.
  assert (Hfst : fst (_init_dict bedfile w) = fst (_init_dict bedfile w'))
    by (rewrite !init_dict_outcome, Hsame; reflexivity).
  split; [exact Hfst|]. split; [apply init_dict_world|].
  intros d d' chromosome location wq Hd Hd'.
  rewrite <- Hfst, Hd in Hd'.
  now injection Hd' as <-.
Qed.

Lemma build_pure_witness :
  fst (_init_dict "genes.bed" genes_world) = Return genes_index
  /\ fst (_init_dict "genes.bed"
            (snd (lookup (Dt genes_index) "chr2" (PyStr "25") genes_world)))
     = Return genes_index
  /\ snd (_init_dict "genes.bed" genes_world) = genes_world.
Proof.
  destruct (build_pure "genes.bed" genes_world
              (snd (lookup (Dt genes_index) "chr2" (PyStr "25") genes_world)))
    as (Hfst & Hsnd & _).
  - vm_compute. reflexivity.
  - split; [vm_compute; reflexivity|]. split; [|exact Hsnd].
    rewrite <- Hfst. vm_compute. reflexivity.
Defined.

(** ** C3 *)

Lemma line_count_world (bedfile : string) (w : world) (n : Z) :
  fst (line_count bedfile w) = Return n ->
  line_count bedfile w = (Return n, w).
Proof.
  unfold line_count, bind, sub_wc_l, lift.
  destruct (wc_l w bedfile); simpl; intros H; try discriminate.
  now rewrite H.
Qed.

(** With a line count above [_max_len], [__init__] is the sqlite set-up. *)
Lemma init_sqlite_branch (bedfile : string) (w : world) (n : Z) :
  fst (line_count bedfile w) = Return n -> _max_len < n ->
  __init__ bedfile w
  = match _init_sqlite bedfile w with
    | (Return conn, w') => (Return (Sq conn), w')
    | (Raise e, w') => (Raise e, w')
    | (Unmodelled, w') => (Unmodelled, w')
    end.
Proof.
  intros Hn Hlt. unfold __init__, bind at 1.
  rewrite (line_count_world _ _ _ Hn).
  assert (Hgt : (n >? _max_len) = true)
    by (rewrite Z.gtb_ltb; apply Z.ltb_lt; lia).
  rewrite Hgt. unfold bind, ret.
  destruct (_init_sqlite bedfile w) as [[conn| |] w']; reflexivity.
Qed.

(** The connection is to the database file next to the BED file. *)
Lemma init_sqlite_conn (bedfile conn : string) (w w' : world) :
  _init_sqlite bedfile w = (Return conn, w') -> conn = bedfile +:+ ".db".
Proof.
  unfold _init_sqlite, bind, stderr_write, path_exists, store, open_, lift, ret.
  simpl.
  destruct (bool_decide _ || bool_decide _); simpl.
  - now intros [= <- _].
  - destruct (files w !! bedfile) as [lines|]; [|discriminate].
    destruct (let? db := ingest lines Sqlite.empty
              in create_indexes (fst <$> Sqlite.tables db) db);
      [now intros [= <- _] | discriminate | discriminate].
Qed.

(** When the database file is there already, it is used as it is and the
    BED file is not opened. *)
Lemma init_sqlite_existing (bedfile : string) (w : world)
    (db : Sqlite.database) :
  databases w !! (bedfile +:+ ".db") = Some db ->
  _init_sqlite bedfile w
  = (Return (bedfile +:+ ".db"),
     wrote (wrote w sqlite_notice) (existing_db_notice (bedfile +:+ ".db"))).
Proof.
  intros H. unfold _init_sqlite, bind, stderr_write, path_exists, ret.
  simpl. rewrite H.
  rewrite bool_decide_eq_true_2 by eauto. reflexivity.
Qed.

(** C3 (amended).  [__init__] compares the line count that [wc -l]
    reports with [_max_len = 1000000].  At or below it, the whole file is
    indexed in memory at once: the object is dictionary-backed and holds
    the index of every line, and nothing else in the world changes.
    Strictly above it, the object is sqlite-backed: it holds only the
    connection to the database file, every query goes to
    [_lookup_sqlite], and when the database file exists the BED file is
    not even opened. *)
Theorem init_backend_by_count (bedfile : string) (w : world) (n : Z) :
  fst (line_count bedfile w) = Return n ->
  (n <= _max_len ->
     (forall lines d,
        files w !! bedfile = Some lines ->
        index_lines lines ∅ = Return d ->
        __init__ bedfile w = (Return (Dt d), w))
     /\ (forall self w',
           __init__ bedfile w = (Return self, w') -> _type self = "dt"))
  /\ (_max_len < n ->
        (forall db,
           databases w !! (bedfile +:+ ".db") = Some db ->
           __init__ bedfile w
           = (Return (Sq (bedfile +:+ ".db")),
              wrote (wrote w sqlite_notice)
                    (existing_db_notice (bedfile +:+ ".db"))))
        /\ (forall self w',
              __init__ bedfile w = (Return self, w') ->
              self = Sq (bedfile +:+ ".db")
              /\ forall chromosome location s wq,
                   str location = Return s ->
                   lookup self chromosome location wq
                   = _lookup_sqlite (bedfile +:+ ".db") chromosome s wq)).
Proof.
  intros Hn. split; intros Hcmp.
  - rewrite (init_dict_branch bedfile w n Hn Hcmp). split.
    + intros lines d -> ->. reflexivity.
    + intros self w'. destruct (files w !! bedfile) as [lines|]; [|discriminate].
      destruct (index_lines lines ∅); intros [= <- _]. reflexivity.
  - rewrite (init_sqlite_branch bedfile w n Hn Hcmp). split.
    + intros db Hdb. now rewrite (init_sqlite_existing bedfile w db Hdb).
    + intros self w'.
      destruct (_init_sqlite bedfile w) as [[conn| |] w1] eqn:E;
        intros [= <- _].
      apply init_sqlite_conn in E as ->. split; [reflexivity|].
      intros chromosome location s wq Hs.
      unfold lookup, bind, lift. now rewrite Hs.
Qed.

Lemma line_count_world_with (file : list string) :
  fst (line_count "genes.bed" (world_with file "3")) = Return 3
  /\ fst (line_count "genes.bed" (world_with file "1000000")) = Return 1000000.
Proof. split; vm_compute; reflexivity. Qed.

Lemma line_count_world_with_db (file : list string) (db : Sqlite.database) :
  fst (line_count "genes.bed" (world_with_db file "1000001" db))
  = Return 1000001.
Proof. vm_compute. reflexivity. Qed.

Lemma init_backend_by_count_witness :
  __init__ "genes.bed" genes_world = (Return (Dt genes_index), genes_world)
  /\ __init__ "genes.bed"
       (world_with_db (repeat gene_a_line (Z.to_nat 1000001)) "1000001" gene_a_db)
     = (Return (Sq "genes.bed.db"),
        wrote (wrote (world_with_db (repeat gene_a_line (Z.to_nat 1000001))
                        "1000001" gene_a_db) sqlite_notice)
              (existing_db_notice "genes.bed.db")).
Proof.
  split.
  - destruct (init_backend_by_count "genes.bed" genes_world 3) as [Hdict _].
    + vm_compute. reflexivity.
    + destruct Hdict as [Hbuild _]; [vm_compute; discriminate|].
      apply (Hbuild genes_bed); vm_compute; reflexivity.
  - destruct (init_backend_by_count "genes.bed"
                (world_with_db (repeat gene_a_line (Z.to_nat 1000001))
                   "1000001" gene_a_db) 1000001) as [_ Hsq].
    + apply line_count_world_with_db.
    + destruct Hsq as [Hexisting _]; [reflexivity|].
      apply (Hexisting gene_a_db). apply lookup_singleton_eq.
Defined.

(** A line with four fields or more and two bounds that are integers in
    the range of a [long] gets through the loop body. *)
Lemma index_line_ok (d : gmap string VecHolder) (line : string) (st en : Z) :
  (4 <= length (fields line))%nat ->
  int_of_str (nth 1 (fields line) "") = Some st ->
  int_of_str (nth 2 (fields line) "") = Some en ->
  is_long st -> is_long en ->
  exists d', index_line d line = Return d'.
Proof.
  intros Hlen Hst Hen Hs He. unfold index_line, int.
  apply Nat.ltb_ge in Hlen. rewrite Hlen, Hst, Hen. cbn [obind].
  rewrite (to_long_ok st Hs), (to_long_ok en He). cbn [obind]. eauto.
Qed.

Lemma index_lines_repeat (line : string) (n : nat) (d : gmap string VecHolder) :
  (forall d, exists d', index_line d line = Return d') ->
  exists d', index_lines (repeat line n) d = Return d'.
Proof.
  intros Hline. revert d. induction n as [|n IH]; intros d; simpl; [eauto|].
  destruct (Hline d) as [d1 ->]. simpl. apply IH.
Qed.

Lemma index_line_gene_a (d : gmap string VecHolder) :
  exists d', index_line d gene_a_line = Return d'.
Proof.
  apply (index_line_ok d gene_a_line 100 200).
  - vm_compute. lia.
  - vm_compute. reflexivity.
  - vm_compute. reflexivity.
  - unfold is_long. vm_compute. split; discriminate.
  - unfold is_long. vm_compute. split; discriminate.
Qed.

(** C3 as stated fails: for a file of exactly 1,000,000 lines, for which
    [wc -l] reports 1000000, [__init__] returns a dictionary-backed
    object: [1000000 > _max_len] is false, so the index of the whole file
    is built in memory and no database is touched. *)
Lemma init_at_threshold_is_dict :
  length million_lines = Z.to_nat 1000000
  /\ fst (line_count "genes.bed" (world_with million_lines "1000000"))
     = Return 1000000
  /\ exists d,
       __init__ "genes.bed" (world_with million_lines "1000000")
       = (Return (Dt d), world_with million_lines "1000000").
Proof.
  split; [apply repeat_length|].
  split; [apply line_count_world_with|].
  destruct (index_lines_repeat gene_a_line (Z.to_nat 1000000) ∅
              index_line_gene_a) as [d Hd].
  exists d.
  rewrite (init_dict_branch "genes.bed" (world_with million_lines "1000000")
             1000000);
    [| apply line_count_world_with | discriminate].
  change (files (world_with million_lines "1000000"))
    with ({[ "genes.bed" := million_lines ]} : gmap string (list string)).
  rewrite lookup_singleton_eq. unfold million_lines. now rewrite Hd.
Qed.

(** ** C4 *)

Lemma between_iff (p : Z) (r : Sqlite.row) :
  Sqlite.between p r = true
  <-> Sqlite.row_start r <= p <= Sqlite.row_end r.
Proof.
  unfold Sqlite.between. rewrite andb_true_iff, !Z.leb_le. tauto.
Qed.

Lemma index_insert_in (r x : Sqlite.row) (rs : list Sqlite.row) :
  In x (Sqlite.index_insert r rs) <-> x = r \/ In x rs.
Proof.
  induction rs as [|r' rs IH]; simpl; [intuition|].
  destruct (Sqlite.index_le r' r); simpl; rewrite ?IH; intuition.
Qed.

(** The index lists the rows of the table, none lost. *)
Lemma index_order_in (x : Sqlite.row) (rs : list Sqlite.row) :
  In x (Sqlite.index_order rs) <-> In x rs.
Proof.
  unfold Sqlite.index_order.
  enough (H : forall acc,
             In x (fold_left (fun acc r => Sqlite.index_insert r acc) rs acc)
             <-> In x acc \/ In x rs) by (rewrite H; simpl; tauto).
  induction rs as [|r rs IH]; intros acc; simpl; [tauto|].
  rewrite IH, index_insert_in. intuition.
Qed.

(** On a table with its index, a position on a bound of a row is
    answered with the name of some row: [BETWEEN] includes both bounds. *)
Lemma lookup_sqlite_on_bound (conn chromosome location : string) (p : Z)
    (db : Sqlite.database) (rows : list Sqlite.row) (r : Sqlite.row)
    (w : world) :
  databases w !! conn = Some db ->
  Sqlite.plain_name chromosome = true ->
  Sqlite.plain_name (chromosome +:+ "_start_end") = true ->
  Sqlite.int_literal location = Some p ->
  Sqlite.find_table db chromosome = Some rows ->
  Sqlite.has_index db (chromosome +:+ "_start_end") chromosome = true ->
  In r rows ->
  Sqlite.row_start r <= Sqlite.row_end r ->
  p = Sqlite.row_start r \/ p = Sqlite.row_end r ->
  exists hit,
    In hit rows /\ Sqlite.between p hit = true
    /\ _lookup_sqlite conn chromosome location w
       = (Return (Sqlite.row_name hit), w).
Proof.
  intros Hdb Hc Hi Hloc Ht Hidx Hin Hle Hp.
  assert (Hr : In r (List.filter (Sqlite.between p) (Sqlite.index_order rows))).
  { apply filter_In. split; [now apply index_order_in|].
    apply between_iff. lia. }
  unfold _lookup_sqlite, query, Sqlite.select_between.
  rewrite Hdb, Hc, Hi, Hloc, Ht, Hidx. simpl.
  destruct (List.filter (Sqlite.between p) (Sqlite.index_order rows))
    as [|hit rest] eqn:E; [destruct Hr|].
  exists hit. simpl.
  assert (Hhit : In hit (List.filter (Sqlite.between p) (Sqlite.index_order rows)))
    by (rewrite E; now left).
  apply filter_In in Hhit as [Hhit Hb].
  rewrite index_order_in in Hhit. auto.
Qed.

(** C4 (as the code behaves on a bound).  The claim is that the sqlite
    backend matches a position exactly when [start < p < end], as the
    dictionary does.  The query it sends is
    [WHERE p BETWEEN start AND end], which includes both bounds.  For the
    record [chr1 TAB 100 TAB 200 TAB GENE_A], as [_init_sqlite] stores it
    and as [_init_dict] indexes it, the sqlite-backed lookup of
    positions 100 and 200 returns GENE_A, where the dictionary-backed
    lookup of the same positions finds nothing. *)
Theorem sqlite_lookup_includes_bounds :
  (let? db := ingest [gene_a_line] Sqlite.empty in
   create_indexes (fst <$> Sqlite.tables db) db) = Return gene_a_db
  /\ index_lines [gene_a_line] ∅ = Return gene_a_index
  /\ lookup (Sq "genes.bed.db") "chr1" (PyStr "100") gene_a_db_world
     = (Return "GENE_A", gene_a_db_world)
  /\ lookup (Sq "genes.bed.db") "chr1" (PyInt 200) gene_a_db_world
     = (Return "GENE_A", gene_a_db_world)
  /\ lookup (Dt gene_a_index) "chr1" (PyStr "100") gene_a_db_world
     = (Return "", wrote gene_a_db_world (location_warning "100" "chr1"))
  /\ lookup (Dt gene_a_index) "chr1" (PyStr "200") gene_a_db_world
     = (Return "", wrote gene_a_db_world (location_warning "200" "chr1")).
Proof. repeat split; vm_compute; reflexivity. Qed.

(** * Further properties of the module *)

(** ** What the dictionary holds *)

Lemma nonempty_index_empty : nonempty_index ∅.
Proof. intros c holder H. now rewrite lookup_empty in H. Qed.

Lemma index_line_nonempty (d d' : gmap string VecHolder) (line : string) :
  nonempty_index d -> index_line d line = Return d' -> nonempty_index d'.
Proof.
  intros Hd H.
  apply index_line_return in H
    as [[_ ->]|(st & en & _ & _ & _ & _ & _ & ->)]; [exact Hd|].
  intros c holder.
  set (chr := nth 0 (fields line) "").
  destruct (decide (chr = c)) as [->|Hne].
  - rewrite lookup_alter_eq.
    case_bool_decide as Hin.
    + destruct Hin as [h Hh]. rewrite Hh. simpl. intros [= <-]. simpl.
      now destruct (wrapped_vector h).
    + rewrite lookup_insert_eq. simpl. intros [= <-]. discriminate.
  - rewrite lookup_alter_ne by assumption.
    case_bool_decide; [apply Hd|].
    rewrite lookup_insert_ne by assumption. apply Hd.
Qed.

Lemma index_lines_nonempty (lines : list string) (d d' : gmap string VecHolder) :
  nonempty_index d -> index_lines lines d = Return d' -> nonempty_index d'.
Proof.
  revert d. induction lines as [|line rest IH]; simpl; intros d Hd.
  - now intros [= <-].
  - destruct (index_line d line) as [d1| |] eqn:E; simpl; try discriminate.
    apply IH. eapply index_line_nonempty; eassumption.
Qed.

(** A key is missing exactly when its vector, read as empty for a missing
    key, is empty. *)
Lemma nonempty_index_key (d : gmap string VecHolder) (c : string) :
  nonempty_index d -> (d !! c = None <-> vector_of d c = []).
Proof.
  intros Hd. unfold vector_of. split.
  - now intros ->.
  - destruct (d !! c) as [h|] eqn:E; [|reflexivity].
    intros Hv. now destruct (Hd c h E).
Qed.

(** A [VecHolder] is its vector. *)
Lemma holder_eq (h h' : VecHolder) :
  wrapped_vector h = wrapped_vector h' -> h = h'.
Proof. destruct h, h'; simpl. now intros ->. Qed.

(** The entry of a chromosome is determined by its records. *)
Lemma index_lines_entry (lines : list string) (d : gmap string VecHolder)
    (c : string) :
  index_lines lines ∅ = Return d ->
  d !! c = match records_for c lines with
           | [] => None
           | v => Some {| wrapped_vector := v |}
           end.
Proof.
  intros H.
  pose proof (index_lines_vector lines ∅ d c H) as Hv.
  pose proof (index_lines_nonempty lines ∅ d nonempty_index_empty H) as Hne.
  unfold vector_of in Hv. rewrite lookup_empty in Hv. simpl in Hv.
  destruct (d !! c) as [h|] eqn:E.
  - destruct (records_for c lines) as [|t v] eqn:Er.
    + now destruct (Hne c h E).
    + f_equal. apply holder_eq. exact Hv.
  - now rewrite <- Hv.
Qed.

(** X1.  A dictionary-backed object holds the file and nothing else: for
    every chromosome name, the vector stored under it is the list of the
    records that the lines of the file give for that chromosome, in the
    order of the lines (no sorting, no merging of duplicates), and the
    name is a key of the dictionary exactly when there is such a record. *)
Theorem index_holds_file_records (bedfile : string) (w w' : world)
    (d : gmap string VecHolder) :
  __init__ bedfile w = (Return (Dt d), w') ->
  exists lines,
    files w !! bedfile = Some lines
    /\ forall c,
         vector_of d c = records_for c lines
         /\ (d !! c = None <-> records_for c lines = []).
Proof.
  intros H. apply init_dt in H as (lines & Hf & H & _).
  exists lines. split; [exact Hf|]. intros c.
  rewrite (index_lines_entry lines d c H). unfold vector_of.
  rewrite (index_lines_entry lines d c H).
  destruct (records_for c lines); split; try reflexivity;
    split; intros; try reflexivity; discriminate.
Qed.

Lemma index_holds_file_records_witness :
  exists lines,
    files genes_world !! "genes.bed" = Some lines
    /\ forall c,
         vector_of genes_index c = records_for c lines
         /\ (genes_index !! c = None <-> records_for c lines = []).
Proof.
  apply (index_holds_file_records "genes.bed" genes_world genes_world).
  vm_compute. reflexivity.
Defined.

(** ** What a dictionary lookup returns *)

(** The ways a dictionary lookup can end, by what the conversion of the
    location, the dictionary and the loop give. *)
Lemma lookup_dict_cases (d : gmap string VecHolder) (chromosome : string)
    (location : pyval) (w : world) :
  (exists e, int location = Raise e
             /\ _lookup_dict d chromosome location w = (Raise e, w))
  \/ (exists z, int location = Return z /\ ~ is_long z
                /\ _lookup_dict d chromosome location w
                   = (Raise OverflowError, w))
  \/ (exists p, int location = Return p /\ is_long p
        /\ ((d !! chromosome = None
             /\ _lookup_dict d chromosome location w
                = (Return "", wrote w (chromosome_warning chromosome)))
            \/ exists holder,
                 d !! chromosome = Some holder
                 /\ ((scan (wrapped_vector holder) p <> ""
                      /\ _lookup_dict d chromosome location w
                         = (Return (scan (wrapped_vector holder) p), w))
                     \/ (scan (wrapped_vector holder) p = ""
                         /\ ((exists s, location = PyStr s
                                /\ _lookup_dict d chromosome location w
                                   = (Return "",
                                      wrote w (location_warning s chromosome)))
                             \/ ((forall s, location <> PyStr s)
                                 /\ _lookup_dict d chromosome location w
                                    = (Raise TypeError, w))))))).
Proof.
  destruct (int location) as [p|e|] eqn:Hint.
  - destruct (to_long_cases p) as [Hl|Hl].
    + apply to_long_return in Hl as [_ Hp].
      right. right. exists p. split; [reflexivity|]. split; [exact Hp|].
      destruct (d !! chromosome) as [holder|] eqn:Hc.
      * right. exists holder. split; [reflexivity|].
        destruct (string_dec (scan (wrapped_vector holder) p) "") as [Hs|Hs].
        -- right. split; [exact Hs|].
           destruct location as [z|s|f|] eqn:Hloc.
           ++ right. split; [discriminate|].
              now apply (lookup_dict_empty_other d chromosome w _ p holder).
           ++ left. exists s. split; [reflexivity|].
              now apply (lookup_dict_empty_str d chromosome w s p holder).
           ++ right. split; [discriminate|].
              now apply (lookup_dict_empty_other d chromosome w _ p holder).
           ++ right. split; [discriminate|].
              now apply (lookup_dict_empty_other d chromosome w _ p holder).
        -- left. split; [exact Hs|].
           now apply (lookup_dict_answer d chromosome w location p holder).
      * left. split; [reflexivity|].
        now apply (lookup_dict_absent d chromosome w location p).
    + right. left. exists p. split; [reflexivity|].
      assert (Hp : ~ is_long p).
      { intros Hp. rewrite (to_long_ok p Hp) in Hl. discriminate. }
      split; [exact Hp|].
      now apply (lookup_dict_overflow d chromosome w location p).
  - left. exists e. split; [reflexivity|].
    now apply lookup_dict_int_raises.
  - destruct location as [z|s|f|]; simpl in Hint; try discriminate.
    + destruct (int_of_str s); discriminate.
    + destruct f; discriminate.
Qed.

(** X2.  On a dictionary-backed object, a location with integer value [p]
    (an integer, a string that [int] parses, a float that it truncates)
    is answered with the name of the first line of the file, among those
    of the chromosome, whose interval has [start < p < end], provided that
    name is not empty; nothing is written.  Later lines that cover [p] as
    well are never returned. *)
Theorem lookup_first_record_of_file (bedfile : string) (w0 w1 w : world)
    (d : gmap string VecHolder) (lines : list string)
    (chromosome : string) (location : pyval) (p : Z) (t : StartEnd) :
  __init__ bedfile w0 = (Return (Dt d), w1) ->
  files w0 !! bedfile = Some lines ->
  int location = Return p ->
  List.find (covers p) (records_for chromosome lines) = Some t ->
  name t <> "" ->
  lookup (Dt d) chromosome location w = (Return (name t), w).
Proof.
  intros Hinit Hf Hint Hfind Hname.
  destruct (init_dt _ _ _ _ Hinit) as (lines' & Hf' & Hbuild & _).
  rewrite Hf in Hf'. injection Hf' as <-.
  pose proof (index_lines_entry lines d chromosome Hbuild) as Hc.
  destruct (records_for chromosome lines) as [|r v] eqn:Er; [discriminate|].
  apply (lookup_first_match bedfile w0 w1 w d chromosome
           {| wrapped_vector := r :: v |} location p t); assumption.
Qed.

Lemma lookup_first_record_of_file_witness :
  lookup (Dt genes_index) "chr1" (PyStr " 160") genes_world
  = (Return "GENE_A", genes_world).
Proof.
  apply (lookup_first_record_of_file "genes.bed" genes_world genes_world
           genes_world genes_index genes_bed "chr1" (PyStr " 160") 160
           {| start := 100; end_ := 200; name := "GENE_A" |}).
  - vm_compute. reflexivity.
  - vm_compute. reflexivity.
  - vm_compute. reflexivity.
  - vm_compute. reflexivity.
  - discriminate.
Defined.

(** X3.  A dictionary lookup never invents an answer: when it returns a
    string that is not empty, the location has an integer value [p], the
    string is the name of a record of that chromosome in the file with
    [start < p < end], no earlier record of the chromosome covers [p],
    and nothing was written. *)
Theorem lookup_answer_is_first_cover (bedfile : string) (w0 w1 w w' : world)
    (d : gmap string VecHolder) (lines : list string)
    (chromosome : string) (location : pyval) (s : string) :
  __init__ bedfile w0 = (Return (Dt d), w1) ->
  files w0 !! bedfile = Some lines ->
  lookup (Dt d) chromosome location w = (Return s, w') ->
  s <> "" ->
  exists p t,
    int location = Return p
    /\ List.find (covers p) (records_for chromosome lines) = Some t
    /\ name t = s
    /\ start t < p < end_ t
    /\ w' = w.
Proof.
  intros Hinit Hf Hlook Hs. simpl in Hlook.
  destruct (init_dt _ _ _ _ Hinit) as (lines' & Hf' & Hbuild & _).
  rewrite Hf in Hf'. injection Hf' as <-.
  pose proof (index_lines_vector lines ∅ d chromosome Hbuild) as Hv.
  unfold vector_of in Hv. rewrite lookup_empty in Hv. simpl in Hv.
  destruct (lookup_dict_cases d chromosome location w)
    as [(e & _ & E)|[(z & _ & _ & E)|(p & Hint & Hp & Hrest)]];
    try (rewrite E in Hlook; discriminate).
  destruct Hrest as [[_ E]|(holder & Hc & Hrest)].
  { rewrite E in Hlook. injection Hlook as <- _. now destruct Hs. }
  rewrite Hc in Hv.
  destruct Hrest as [[Hne E]|[Hempty [(s' & _ & E)|[_ E]]]];
    rewrite E in Hlook; try discriminate.
  - injection Hlook as <- <-.
    pose proof (scan_find (wrapped_vector holder) p) as Hsf.
    destruct (List.find (covers p) (wrapped_vector holder)) as [t|] eqn:Hfind;
      [|now destruct Hne].
    exists p, t. split; [exact Hint|].
    split; [now rewrite <- Hv|].
    split; [now rewrite Hsf|]. split; [|reflexivity].
    apply covers_iff. exact (proj2 (find_some _ _ Hfind)).
  - injection Hlook as <- _. now destruct Hs.
Qed.

Lemma lookup_answer_is_first_cover_witness :
  exists p t,
    int (PyInt 220) = Return p
    /\ List.find (covers p) (records_for "chr1" genes_bed) = Some t
    /\ name t = "GENE_B"
    /\ start t < p < end_ t
    /\ genes_world = genes_world.
Proof.
  apply (lookup_answer_is_first_cover "genes.bed" genes_world genes_world
           genes_world genes_world genes_index genes_bed "chr1" (PyInt 220)
           "GENE_B").
  - vm_compute. reflexivity.
  - vm_compute. reflexivity.
  - vm_compute. reflexivity.
  - discriminate.
Defined.

(** X4.  A dictionary lookup changes nothing but stderr, and writes there
    exactly when it returns the empty string: one warning is appended
    then, nothing is written when a name is returned, and nothing has
    been written when the call raises.  It never leaves the modelled
    fragment. *)
Theorem lookup_dict_writes_iff_empty (d : gmap string VecHolder)
    (chromosome : string) (location : pyval) (w : world) :
  match lookup (Dt d) chromosome location w with
  | (Return s, w') =>
      if is_empty s then exists msg, w' = wrote w msg else w' = w
  | (Raise _, w') => w' = w
  | (Unmodelled, _) => False
  end.
Proof.
  simpl.
  destruct (lookup_dict_cases d chromosome location w)
    as [(e & _ & E)|[(z & _ & _ & E)|(p & _ & _ & Hrest)]];
    try (rewrite E; reflexivity).
  destruct Hrest as [[_ E]|(holder & _ & Hrest)].
  { rewrite E. simpl. eauto. }
  destruct Hrest as [[Hne E]|[_ [(s' & _ & E)|[_ E]]]]; rewrite E.
  - destruct (scan (wrapped_vector holder) p); [now destruct Hne | reflexivity].
  - simpl. eauto.
  - reflexivity.
Qed.

(** X5.  Passing the position as a string or as the integer it parses to
    makes no difference to a dictionary lookup, except when the
    chromosome is in the index and no named record covers the position:
    there the string gets the empty string and the warning, and the
    integer makes the call raise [TypeError]. *)
Theorem lookup_int_versus_str (d : gmap string VecHolder)
    (chromosome s : string) (p : Z) (w : world) :
  int_of_str s = Some p ->
  lookup (Dt d) chromosome (PyInt p) w = lookup (Dt d) chromosome (PyStr s) w
  \/ (exists holder,
        d !! chromosome = Some holder
        /\ scan (wrapped_vector holder) p = ""
        /\ lookup (Dt d) chromosome (PyInt p) w = (Raise TypeError, w)
        /\ lookup (Dt d) chromosome (PyStr s) w
           = (Return "", wrote w (location_warning s chromosome))).
Proof.
  intros Hs. simpl.
  assert (Hint : int (PyStr s) = Return p) by (simpl; now rewrite Hs).
  destruct (to_long_cases p) as [Hl|Hl].
  - apply to_long_return in Hl as [_ Hp].
    destruct (d !! chromosome) as [holder|] eqn:Hc.
    + destruct (string_dec (scan (wrapped_vector holder) p) "") as [He|Hne].
      * right. exists holder. split; [reflexivity|]. split; [exact He|].
        split.
        -- now apply (lookup_dict_empty_other d chromosome w _ p holder).
        -- now apply (lookup_dict_empty_str d chromosome w s p holder).
      * left.
        rewrite (lookup_dict_answer d chromosome w (PyInt p) p holder);
          try easy.
        now rewrite (lookup_dict_answer d chromosome w (PyStr s) p holder).
    + left.
      rewrite (lookup_dict_absent d chromosome w (PyInt p) p); try easy.
      now rewrite (lookup_dict_absent d chromosome w (PyStr s) p).
  - left.
    assert (Hp : ~ is_long p).
    { intros Hp. rewrite (to_long_ok p Hp) in Hl. discriminate. }
    rewrite (lookup_dict_overflow d chromosome w (PyInt p) p); try easy.
    now rewrite (lookup_dict_overflow d chromosome w (PyStr s) p).
Qed.

Lemma lookup_int_versus_str_witness :
  lookup (Dt genes_index) "chr1" (PyInt 160) genes_world
  = lookup (Dt genes_index) "chr1" (PyStr "160") genes_world
  \/ (exists holder,
        genes_index !! "chr1" = Some holder
        /\ scan (wrapped_vector holder) 160 = ""
        /\ lookup (Dt genes_index) "chr1" (PyInt 160) genes_world
           = (Raise TypeError, genes_world)
        /\ lookup (Dt genes_index) "chr1" (PyStr "160") genes_world
           = (Return "", wrote genes_world (location_warning "160" "chr1"))).
Proof.
  apply (lookup_int_versus_str genes_index "chr1" "160" 160 genes_world).
  vm_compute. reflexivity.
Defined.

(** ** What of a line reaches the dictionary *)

(** The loop body looks at the first four fields only. *)
Lemma index_line_first_four (d : gmap string VecHolder) (l1 l2 : string) :
  (4 <= length (fields l1))%nat ->
  firstn 4 (fields l1) = firstn 4 (fields l2) ->
  index_line d l1 = index_line d l2.
Proof.
  intros Hlen Hfour. unfold index_line.
  destruct (fields l1) as [|a [|b [|c [|e r]]]]; simpl in Hlen; try lia.
  destruct (fields l2) as [|a' [|b' [|c' [|e' r']]]]; simpl in Hfour;
    try discriminate.
  injection Hfour as -> -> -> ->. reflexivity.
Qed.

Lemma index_lines_same_body (before after : list string) (l1 l2 : string)
    (d : gmap string VecHolder) :
  (forall d', index_line d' l1 = index_line d' l2) ->
  index_lines (before ++ l1 :: after) d = index_lines (before ++ l2 :: after) d.
Proof.
  intros H. rewrite !index_lines_app.
  destruct (index_lines before d) as [d'| |]; simpl; try reflexivity.
  now rewrite H.
Qed.

(** X6.  Fields after the fourth are ignored: two files that differ in one
    line, where the two versions of the line have at least four fields
    and the same first four, are built into the same dictionary, or fail
    in the same way. *)
Theorem extra_fields_ignored (bedfile : string) (w w' : world)
    (before after : list string) (l1 l2 : string) :
  (4 <= length (fields l1))%nat ->
  firstn 4 (fields l1) = firstn 4 (fields l2) ->
  files w !! bedfile = Some (before ++ l1 :: after)%list ->
  files w' !! bedfile = Some (before ++ l2 :: after)%list ->
  fst (_init_dict bedfile w) = fst (_init_dict bedfile w').
Proof.
  intros Hlen Hfour Hw Hw'. rewrite !init_dict_outcome, Hw, Hw'.
  apply index_lines_same_body. intros d'.
  now apply index_line_first_four.
Qed.

Lemma extra_fields_ignored_witness :
  fst (_init_dict "genes.bed" (world_with genes_bed_wide "3"))
  = fst (_init_dict "genes.bed" genes_world).
Proof.
  apply (extra_fields_ignored "genes.bed" (world_with genes_bed_wide "3")
           genes_world []
           [tsv ["chr1"; "150"; "250"; "GENE_B"];
            tsv ["chr2"; "10"; "20"; "GENE_C"]]
           (tsv ["chr1"; "100"; "200"; "GENE_A"; "0"; "+"])
           (tsv ["chr1"; "100"; "200"; "GENE_A"])).
  - vm_compute. lia.
  - vm_compute. reflexivity.
  - vm_compute. reflexivity.
  - vm_compute. reflexivity.
Defined.

Lemma rstrip_all_space (ws : string) :
  all_space ws = true -> rstrip ws = "".
Proof.
  induction ws as [|c ws IH]; simpl; [reflexivity|].
  intros H. apply andb_true_iff in H as [Hc Hws].
  now rewrite (IH Hws), Hc.
Qed.

(** Whitespace at the end of a text does not survive [rstrip]. *)
Lemma rstrip_app_space (s ws : string) :
  all_space ws = true -> rstrip (s +:+ ws) = rstrip s.
Proof.
  intros H. induction s as [|c s IH]; simpl.
  - now apply rstrip_all_space.
  - now rewrite IH.
Qed.

(** X7.  Whitespace at the end of a line never matters, whatever it is
    made of (blanks, tabs, a carriage return, the terminator): two files
    that differ in the trailing whitespace of one line are built into the
    same dictionary, or fail in the same way. *)
Theorem trailing_whitespace_ignored (bedfile : string) (w w' : world)
    (before after : list string) (body ws ws' : string) :
  all_space ws = true -> all_space ws' = true ->
  files w !! bedfile = Some (before ++ (body +:+ ws) :: after)%list ->
  files w' !! bedfile = Some (before ++ (body +:+ ws') :: after)%list ->
  fields (body +:+ ws) = fields body
  /\ fst (_init_dict bedfile w) = fst (_init_dict bedfile w').
Proof.
  intros Hws Hws' Hw Hw'.
  assert (Hf : forall t, all_space t = true -> fields (body +:+ t) = fields body).
  { intros t Ht. unfold fields. now rewrite rstrip_app_space. }
  split; [now apply Hf|].
  rewrite !init_dict_outcome, Hw, Hw'.
  apply index_lines_same_body. intros d'.
  unfold index_line. now rewrite (Hf ws Hws), (Hf ws' Hws').
Qed.

Lemma trailing_whitespace_ignored_witness :
  fst (_init_dict "genes.bed" (world_with genes_bed_crlf "3"))
  = fst (_init_dict "genes.bed" genes_world).
Proof.
  apply (trailing_whitespace_ignored "genes.bed"
           (world_with genes_bed_crlf "3") genes_world []
           [tsv ["chr1"; "150"; "250"; "GENE_B"];
            tsv ["chr2"; "10"; "20"; "GENE_C"]]
           ("chr1" +:+ String TAB "100" +:+ String TAB "200"
              +:+ String TAB "GENE_A")
           (String " " (String " " (String "013" LF))) LF).
  - vm_compute. reflexivity.
  - vm_compute. reflexivity.
  - vm_compute. reflexivity.
  - vm_compute. reflexivity.
Defined.

(** ** Chromosomes do not interfere *)

(** A dictionary lookup reads the dictionary at the chromosome only. *)
Lemma lookup_dict_key_only (d d' : gmap string VecHolder)
    (chromosome : string) (location : pyval) (w : world) :
  d !! chromosome = d' !! chromosome ->
  _lookup_dict d chromosome location w = _lookup_dict d' chromosome location w.
Proof. intros H. unfold _lookup_dict, bind. now rewrite H. Qed.

(** X8.  The answers for a chromosome depend on the lines of that
    chromosome only: two dictionary-backed objects built from files that
    give the same records, in the same order, for a chromosome answer
    every lookup on it alike, whatever the files hold for other
    chromosomes and however the lines of different chromosomes are
    interleaved. *)
Theorem chromosomes_independent (bedfile bedfile' : string)
    (w0 w1 w0' w1' : world) (d d' : gmap string VecHolder)
    (lines lines' : list string) (chromosome : string) :
  __init__ bedfile w0 = (Return (Dt d), w1) ->
  __init__ bedfile' w0' = (Return (Dt d'), w1') ->
  files w0 !! bedfile = Some lines ->
  files w0' !! bedfile' = Some lines' ->
  records_for chromosome lines = records_for chromosome lines' ->
  forall location w,
    lookup (Dt d) chromosome location w = lookup (Dt d') chromosome location w.
Proof.
  intros Hinit Hinit' Hf Hf' Hsame location w. simpl.
  destruct (init_dt _ _ _ _ Hinit) as (l & Hl & Hbuild & _).
  destruct (init_dt _ _ _ _ Hinit') as (l' & Hl' & Hbuild' & _).
  rewrite Hf in Hl. injection Hl as <-.
  rewrite Hf' in Hl'. injection Hl' as <-.
  apply lookup_dict_key_only.
  rewrite (index_lines_entry lines d chromosome Hbuild).
  rewrite (index_lines_entry lines' d' chromosome Hbuild').
  now rewrite Hsame.
Qed.

Lemma chromosomes_independent_witness :
  lookup (Dt genes_index) "chr1" (PyInt 160) genes_world
  = lookup (Dt genes_index_swapped) "chr1" (PyInt 160) genes_world.
Proof.
  refine (chromosomes_independent "genes.bed" "genes.bed"
            genes_world genes_world
            (world_with genes_bed_swapped "3") (world_with genes_bed_swapped "3")
            genes_index genes_index_swapped genes_bed genes_bed_swapped "chr1"
            _ _ _ _ _ (PyInt 160) genes_world).
  - vm_compute. reflexivity.
  - vm_compute. reflexivity.
  - vm_compute. reflexivity.
  - vm_compute. reflexivity.
  - vm_compute. reflexivity.
Defined.

(** ** Lines added at the end *)

Lemma scan_app_hit (v v' : list StartEnd) (p : Z) :
  scan v p <> "" -> scan (v ++ v') p = scan v p.
Proof.
  induction v as [|t v IH]; simpl; [congruence|].
  destruct (covers p t); [reflexivity | exact IH].
Qed.

Lemma records_for_app (c : string) (l1 l2 : list string) :
  records_for c (l1 ++ l2) = (records_for c l1 ++ records_for c l2)%list.
Proof. unfold records_for. apply omap_app. Qed.

(** X9.  Lines added at the end of the file never change an answer
    already given: when a dictionary-backed object returns a name for a
    lookup, the object built from the longer file returns the same name
    for it (the first match wins, so a later record cannot take its
    place), and writes nothing either. *)
Theorem appended_lines_keep_answers (bedfile bedfile' : string)
    (w0 w1 w0' w1' w w' : world) (d d' : gmap string VecHolder)
    (lines more : list string) (chromosome : string) (location : pyval)
    (s : string) :
  __init__ bedfile w0 = (Return (Dt d), w1) ->
  __init__ bedfile' w0' = (Return (Dt d'), w1') ->
  files w0 !! bedfile = Some lines ->
  files w0' !! bedfile' = Some (lines ++ more)%list ->
  lookup (Dt d) chromosome location w = (Return s, w') ->
  s <> "" ->
  lookup (Dt d') chromosome location w = (Return s, w').
Proof.
  intros Hinit Hinit' Hf Hf' Hlook Hs. simpl in Hlook |- *.
  destruct (init_dt _ _ _ _ Hinit) as (l & Hl & Hbuild & _).
  destruct (init_dt _ _ _ _ Hinit') as (l' & Hl' & Hbuild' & _).
  rewrite Hf in Hl. injection Hl as <-.
  rewrite Hf' in Hl'. injection Hl' as <-.
  pose proof (index_lines_entry lines d chromosome Hbuild) as He.
  pose proof (index_lines_entry _ d' chromosome Hbuild') as He'.
  rewrite records_for_app in He'.
  destruct (lookup_dict_cases d chromosome location w)
    as [(e & _ & E)|[(z & _ & _ & E)|(p & Hint & Hp & Hrest)]];
    try (rewrite E in Hlook; discriminate).
  destruct Hrest as [[_ E]|(holder & Hc & Hrest)].
  { rewrite E in Hlook. injection Hlook as <- _. now destruct Hs. }
  destruct Hrest as [[Hne E]|[Hempty [(s' & _ & E)|[_ E]]]];
    rewrite E in Hlook; try discriminate.
  - injection Hlook as <- <-.
    rewrite Hc in He.
    assert (Hv : wrapped_vector holder = records_for chromosome lines
                 /\ records_for chromosome lines <> []).
    { destruct (records_for chromosome lines) as [|r v]; [discriminate|].
      injection He as ->. split; [reflexivity | discriminate]. }
    destruct Hv as [Hv Hnil]. rewrite Hv in *.
    assert (Hc' : d' !! chromosome
                  = Some {| wrapped_vector :=
                       (records_for chromosome lines
                        ++ records_for chromosome more)%list |}).
    { rewrite He'.
      destruct (records_for chromosome lines) as [|r v]; [now destruct Hnil|].
      reflexivity. }
    pose proof (scan_app_hit _ (records_for chromosome more) p Hne) as Happ.
    rewrite <- Happ.
    apply (lookup_dict_answer d' chromosome w location p _ Hint Hp Hc').
    cbn [wrapped_vector]. now rewrite Happ.
  - injection Hlook as <- _. now destruct Hs.
Qed.

Lemma appended_lines_keep_answers_witness :
  lookup (Dt genes_index_more) "chr2" (PyInt 15) genes_world
  = (Return "GENE_C", genes_world).
Proof.
  apply (appended_lines_keep_answers "genes.bed" "genes.bed"
           genes_world genes_world
           (world_with genes_bed_more "4") (world_with genes_bed_more "4")
           genes_world genes_world genes_index genes_index_more
           genes_bed [tsv ["chr2"; "5"; "30"; "GENE_D"]] "chr2" (PyInt 15)
           "GENE_C").
  - vm_compute. reflexivity.
  - vm_compute. reflexivity.
  - vm_compute. reflexivity.
  - vm_compute. reflexivity.
  - vm_compute. reflexivity.
  - discriminate.
Defined.

(** ** Records that no position reaches *)

Lemma covers_narrow (t : StartEnd) (p : Z) :
  end_ t <= start t + 1 -> covers p t = false.
Proof.
  intros H. unfold covers.
  destruct (start t <? p) eqn:E1; [|reflexivity].
  destruct (p <? end_ t) eqn:E2; [|reflexivity].
  apply Z.ltb_lt in E1. apply Z.ltb_lt in E2. lia.
Qed.

Lemma scan_without_narrow (v1 v2 : list StartEnd) (t : StartEnd) (p : Z) :
  end_ t <= start t + 1 -> scan (v1 ++ t :: v2) p = scan (v1 ++ v2) p.
Proof.
  intros H. induction v1 as [|t1 v1 IH]; simpl.
  - now rewrite (covers_narrow t p H).
  - now rewrite IH.
Qed.

(** X10.  A record whose end is less than two above its start is never
    found: no position lies strictly between its bounds, so every
    dictionary lookup on its chromosome ends as it would without the
    record (the same answer, warning or error).  A one-base feature
    [(s, s + 1)] is such a record. *)
Theorem narrow_record_never_found (d d' : gmap string VecHolder)
    (chromosome : string) (v1 v2 : list StartEnd) (t : StartEnd) :
  end_ t <= start t + 1 ->
  d !! chromosome = Some {| wrapped_vector := (v1 ++ t :: v2)%list |} ->
  d' !! chromosome = Some {| wrapped_vector := (v1 ++ v2)%list |} ->
  forall location w,
    lookup (Dt d) chromosome location w = lookup (Dt d') chromosome location w.
Proof.
  intros Hnarrow Hc Hc' location w. simpl.
  unfold _lookup_dict, bind. rewrite Hc, Hc'.
  destruct (lift (let? z := int location in to_long z) w) as [[loc| |] w1];
    try reflexivity.
  simpl. now rewrite (scan_without_narrow v1 v2 t loc Hnarrow).
Qed.

Lemma narrow_record_never_found_witness :
  lookup (Dt snp_index) "chr1" (PyStr "160") genes_world
  = lookup (Dt no_snp_index) "chr1" (PyStr "160") genes_world.
Proof.
  refine (narrow_record_never_found snp_index no_snp_index "chr1" []
            [ {| start := 100; end_ := 200; name := "GENE_A" |} ]
            {| start := 160; end_ := 161; name := "SNP_1" |}
            _ _ _ (PyStr "160") genes_world).
  - vm_compute. discriminate.
  - vm_compute. reflexivity.
  - vm_compute. reflexivity.
Defined.

(** ** Construction and the output of wc *)

(** X11.  [__init__] takes the text before the first blank of the output
    of [wc -l] as the line count.  When that output starts with a blank,
    as the padded output of a BSD [wc] does, this text is empty and
    construction raises [ValueError] before the file is opened, with
    nothing read or written. *)
Theorem init_padded_wc_raises (bedfile : string) (w : world) (rest : string) :
  wc_l w bedfile = Return (String " " rest) ->
  __init__ bedfile w = (Raise ValueError, w).
Proof.
  intros H. unfold __init__, bind at 1.
  unfold line_count, bind, sub_wc_l, lift. rewrite H. reflexivity.
Qed.

Lemma init_padded_wc_raises_witness :
  __init__ "genes.bed" padded_wc_world = (Raise ValueError, padded_wc_world).
Proof.
  apply (init_padded_wc_raises "genes.bed" padded_wc_world
           ("      3 genes.bed" +:+ LF)).
  reflexivity.
Defined.

(** ** The two stores hold the same records *)

Lemma isdigit_not_space (c : ascii) : isdigit c = true -> isspace c = false.
Proof.
  unfold isdigit, isspace. intros H.
  apply andb_true_iff in H as [H1 H2].
  apply N.leb_le in H1. apply N.leb_le in H2.
  destruct (9 <=? N_of_ascii c)%N eqn:E1, (N_of_ascii c <=? 13)%N eqn:E2,
           (28 <=? N_of_ascii c)%N eqn:E3, (N_of_ascii c <=? 32)%N eqn:E4;
    try reflexivity;
    repeat match goal with
           | E : (_ <=? _)%N = true |- _ => apply N.leb_le in E
           end; lia.
Qed.

Lemma all_digits_no_space (s : string) :
  Sqlite.all_digits s = true -> no_space s = true.
Proof.
  induction s as [|c s IH]; simpl; [reflexivity|].
  intros H. apply andb_true_iff in H as [Hc Hs].
  now rewrite (isdigit_not_space c Hc), (IH Hs).
Qed.

Lemma rstrip_no_space (s : string) : no_space s = true -> rstrip s = s.
Proof.
  induction s as [|c s IH]; simpl; [reflexivity|].
  intros H. apply andb_true_iff in H as [Hc Hs].
  apply negb_true_iff in Hc. now rewrite (IH Hs), Hc, andb_false_r.
Qed.

(** What [int] skips is whitespace for [str.isspace] as well. *)
Lemma int_space_isspace (c : ascii) : Py_ISSPACE c = true -> isspace c = true.
Proof.
  unfold Py_ISSPACE, isspace. intros H.
  apply orb_true_iff in H as [H|H].
  - now rewrite H.
  - apply N.eqb_eq in H. rewrite H. reflexivity.
Qed.

Lemma not_isspace_int_space (c : ascii) :
  isspace c = false -> Py_ISSPACE c = false.
Proof.
  intros H. destruct (Py_ISSPACE c) eqn:E; [|reflexivity].
  apply int_space_isspace in E. congruence.
Qed.

Lemma drop_space_no_space (s : string) : no_space s = true -> drop_space s = s.
Proof.
  induction s as [|c s IH]; simpl; [reflexivity|].
  intros H. apply andb_true_iff in H as [Hc Hs].
  apply negb_true_iff in Hc.
  now rewrite (IH Hs), (not_isspace_int_space c Hc), andb_false_r.
Qed.

Lemma skip_space_no_space (s : string) : no_space s = true -> skip_space s = s.
Proof.
  destruct s as [|c s]; simpl; [reflexivity|].
  intros H. apply andb_true_iff in H as [Hc _].
  apply negb_true_iff in Hc. now rewrite (not_isspace_int_space c Hc).
Qed.

(** Within the digit limit, the literal is read digit by digit. *)
Lemma int_of_digits_within (d : string) :
  digit_count d <= int_max_str_digits ->
  int_of_digits d = int_digits d 0 false.
Proof.
  intros H. unfold int_of_digits.
  destruct (Z.ltb_spec int_max_str_digits (digit_count d)); [lia | reflexivity].
Qed.

(** How the two readers of a number dispatch on the first character. *)
Lemma int_of_str_no_sign (c : ascii) (s : string) :
  no_space (String c s) = true -> c <> "-"%char -> c <> "+"%char ->
  int_of_str (String c s) = int_of_digits (String c s).
Proof.
  intros Hns Hm Hp. unfold int_of_str.
  rewrite (drop_space_no_space _ Hns), (skip_space_no_space _ Hns).
  destruct c as [[] [] [] [] [] [] [] []]; try reflexivity; congruence.
Qed.

Lemma int_of_str_minus (s : string) :
  no_space s = true ->
  int_of_str (String "-" s) = option_map Z.opp (int_of_digits s).
Proof.
  intros Hns. unfold int_of_str.
  assert (H : no_space (String "-" s) = true) by (simpl; exact Hns).
  now rewrite (drop_space_no_space _ H), (skip_space_no_space _ H).
Qed.

Lemma int_literal_no_sign (c : ascii) (s : string) :
  c <> "-"%char ->
  Sqlite.int_literal (String c s)
  = if Sqlite.all_digits (String c s) then
      match int_digits (String c s) 0 false with
      | Some z => if (LONG_MIN <=? z) && (z <=? LONG_MAX) then Some z else None
      | None => None
      end
    else None.
Proof.
  intros Hm. unfold Sqlite.int_literal.
  destruct c as [[] [] [] [] [] [] [] []]; try reflexivity; congruence.
Qed.

(** A text that sqlite reads as an integer literal is read by [int] as
    the same integer, when it is within the digit limit of [int], and
    that integer fits a C long. *)
Lemma int_literal_int_of_str (s : string) (z : Z) :
  Sqlite.int_literal s = Some z ->
  digit_count s <= int_max_str_digits ->
  int_of_str s = Some z /\ is_long z.
Proof.
  intros Hlit Hcount. revert Hlit.
  assert (Hrange : forall v : Z,
            (if (LONG_MIN <=? v) && (v <=? LONG_MAX) then Some v else None)
            = Some z -> v = z /\ is_long z).
  { intros v H. destruct ((LONG_MIN <=? v) && (v <=? LONG_MAX)) eqn:E;
      [|discriminate].
    injection H as <-. split; [reflexivity|].
    apply andb_true_iff in E as [E1 E2].
    apply Z.leb_le in E1. apply Z.leb_le in E2. split; assumption. }
  destruct s as [|c s].
  - discriminate.
  - destruct (Ascii.eqb_spec c "-") as [->|Hm].
    + unfold Sqlite.int_literal.
      destruct (Sqlite.all_digits s) eqn:Hd; [|discriminate].
      rewrite (int_of_str_minus s (all_digits_no_space s Hd)).
      rewrite (int_of_digits_within s Hcount).
      destruct (int_digits s 0 false) as [v|]; [|discriminate].
      intros H. apply Hrange in H as [<- Hz]. split; [reflexivity | exact Hz].
    + rewrite (int_literal_no_sign c s Hm).
      destruct (Sqlite.all_digits (String c s)) eqn:Hd; [|discriminate].
      assert (Hp : c <> "+"%char).
      { intros ->. discriminate. }
      rewrite (int_of_str_no_sign c s (all_digits_no_space _ Hd) Hm Hp).
      rewrite (int_of_digits_within _ Hcount).
      destruct (int_digits (String c s) 0 false) as [v|]; [|discriminate].
      intros H. apply Hrange in H as [<- Hz]. split; [reflexivity | exact Hz].
Qed.

Lemma same_name_refl (a : string) : Sqlite.same_name a a = true.
Proof. unfold Sqlite.same_name. apply String.eqb_refl. Qed.

Lemma same_name_sym (a b : string) :
  Sqlite.same_name a b = Sqlite.same_name b a.
Proof. unfold Sqlite.same_name. apply String.eqb_sym. Qed.

Lemma exact_table_in (db : Sqlite.database) (c : string) (rows : list Sqlite.row) :
  exact_table db c = Some rows -> In (c, rows) (Sqlite.tables db).
Proof.
  unfold exact_table.
  destruct (List.find _ (Sqlite.tables db)) as [[n r]|] eqn:E; [|discriminate].
  simpl. intros [= <-]. apply find_some in E as [Hin Hn].
  simpl in Hn. apply String.eqb_eq in Hn. now subst.
Qed.

(** Among tables with distinct names, a name that is the name of a table
    is matched by that table only, with or without regard to case. *)
Lemma same_name_exact (db : Sqlite.database) (c : string) :
  distinct_tables db -> is_Some (exact_table db c) ->
  forall e, In e (Sqlite.tables db) ->
    Sqlite.same_name (fst e) c = String.eqb (fst e) c.
Proof.
  intros Hd [rows Hrows] e He. apply exact_table_in in Hrows.
  destruct (Sqlite.same_name (fst e) c) eqn:Hs.
  - symmetry. apply String.eqb_eq.
    exact (Hd e (c, rows) He Hrows Hs).
  - destruct (String.eqb_spec (fst e) c) as [Heq|]; [|reflexivity].
    rewrite Heq, same_name_refl in Hs. discriminate.
Qed.

Lemma find_table_exact (db : Sqlite.database) (c : string) :
  distinct_tables db -> is_Some (exact_table db c) ->
  Sqlite.find_table db c = exact_table db c.
Proof.
  intros Hd Hc. unfold Sqlite.find_table, exact_table.
  pose proof (same_name_exact db c Hd Hc) as Hall.
  induction (Sqlite.tables db) as [|e ts IH]; [reflexivity|].
  simpl. rewrite (Hall e (or_introl eq_refl)).
  destruct (String.eqb (fst e) c); [reflexivity|].
  apply IH. intros e' He'. apply Hall. now right.
Qed.

Lemma table_listed_exact (db : Sqlite.database) (c : string) :
  Sqlite.table_listed db c = true <-> is_Some (exact_table db c).
Proof.
  unfold Sqlite.table_listed, exact_table.
  induction (Sqlite.tables db) as [|e ts IH]; simpl.
  - split; [discriminate | intros [x Hx]; discriminate].
  - destruct (String.eqb (fst e) c); simpl; [|exact IH].
    split; eauto.
Qed.

Lemma name_in_use_table (db : Sqlite.database) (n : string) (e : string * list Sqlite.row) :
  Sqlite.name_in_use db n = false -> In e (Sqlite.tables db) ->
  Sqlite.same_name (fst e) n = false.
Proof.
  unfold Sqlite.name_in_use. intros H He.
  apply orb_false_iff in H as [H _].
  destruct (Sqlite.same_name (fst e) n) eqn:E; [|reflexivity].
  assert (Hex : existsb (fun e => Sqlite.same_name (fst e) n) (Sqlite.tables db)
                = true).
  { apply existsb_exists. eauto. }
  congruence.
Qed.

(** The rows of a table after a row was appended to the table [t]. *)
Lemma exact_table_append (ts : list (string * list Sqlite.row))
    (ixs : list (string * string)) (t c : string) (r : Sqlite.row) :
  (forall e, In e ts -> Sqlite.same_name (fst e) t = String.eqb (fst e) t) ->
  exact_table
    {| Sqlite.tables :=
         (fun te : string * list Sqlite.row =>
            if Sqlite.same_name (fst te) t
            then (fst te, (snd te ++ [r])%list) else te) <$> ts;
       Sqlite.indexes := ixs |} c
  = if String.eqb t c
    then (fun rows => (rows ++ [r])%list)
           <$> exact_table {| Sqlite.tables := ts; Sqlite.indexes := ixs |} c
    else exact_table {| Sqlite.tables := ts; Sqlite.indexes := ixs |} c.
Proof.
  unfold exact_table. simpl. intros Hall.
  induction ts as [|e ts IH]; simpl.
  - now destruct (String.eqb t c).
  - rewrite (Hall e (or_introl eq_refl)).
    assert (IH' := IH (fun e' He' => Hall e' (or_intror He'))).
    destruct (String.eqb_spec (fst e) t) as [Het|Het]; simpl.
    + destruct (String.eqb_spec (fst e) c) as [Hec|Hec]; simpl.
      * assert (Htc : String.eqb t c = true)
          by (apply String.eqb_eq; congruence).
        now rewrite Htc.
      * exact IH'.
    + destruct (String.eqb_spec (fst e) c) as [Hec|Hec]; simpl.
      * assert (Htc : String.eqb t c = false)
          by (apply String.eqb_neq; congruence).
        now rewrite Htc.
      * exact IH'.
Qed.

(** The rows of a table after a new, empty table [t] was created. *)
Lemma exact_table_create (db : Sqlite.database) (t c : string) :
  exact_table
    {| Sqlite.tables := (Sqlite.tables db ++ [(t, [])])%list;
       Sqlite.indexes := Sqlite.indexes db |} c
  = match exact_table db c with
    | Some rows => Some rows
    | None => if String.eqb t c then Some [] else None
    end.
Proof.
  unfold exact_table. simpl.
  induction (Sqlite.tables db) as [|e ts IH]; simpl.
  - now destruct (String.eqb t c).
  - destruct (String.eqb (fst e) c); [reflexivity | exact IH].
Qed.

Lemma plain_bound_count (s : string) :
  plain_bound s = true -> digit_count s <= int_max_str_digits.
Proof.
  unfold plain_bound. intros H. apply andb_true_iff in H as [_ H].
  now apply Z.leb_le.
Qed.

Lemma plain_line_bounds (line : string) :
  plain_line line = true ->
  (length (fields line) <? 4)%nat = false ->
  plain_bound (nth 1 (fields line) "") = true
  /\ plain_bound (nth 2 (fields line) "") = true.
Proof.
  unfold plain_line. intros H Hlen. rewrite Hlen in H. cbn [orb] in H.
  apply andb_true_iff in H as [H H2]. apply andb_true_iff in H as [_ H1].
  split; assumption.
Qed.

(** The loop body of the dictionary build on a line whose bounds are
    plain. *)
Lemma index_line_literals (d : gmap string VecHolder) (line : string) (s e : Z) :
  (length (fields line) <? 4)%nat = false ->
  plain_line line = true ->
  Sqlite.int_literal (nth 1 (fields line) "") = Some s ->
  Sqlite.int_literal (nth 2 (fields line) "") = Some e ->
  index_line d line
  = Return (alter (push_back {| start := s; end_ := e;
                                name := encode (nth 3 (fields line) "") |})
                  (nth 0 (fields line) "")
                  (if bool_decide (is_Some (d !! nth 0 (fields line) ""))
                   then d
                   else <[nth 0 (fields line) "" := VecHolder_new]> d)).
Proof.
  intros Hlen Hplain Hs He.
  destruct (plain_line_bounds line Hplain Hlen) as [H1 H2].
  apply int_literal_int_of_str in Hs as [Hs Hsl];
    [|now apply plain_bound_count].
  apply int_literal_int_of_str in He as [He Hel];
    [|now apply plain_bound_count].
  unfold index_line, int. rewrite Hlen, Hs, He. cbn [obind].
  rewrite (to_long_ok s Hsl), (to_long_ok e Hel). reflexivity.
Qed.

(** Appending a row to the table of a chromosome is what [push_back]
    does to the vector of the chromosome. *)
Lemma insert_row_same_records (db db' : Sqlite.database)
    (d : gmap string VecHolder) (t nm st en : string) :
  same_records db d -> distinct_tables db ->
  is_Some (exact_table db t) ->
  Sqlite.insert_row db t nm st en = Return db' ->
  exists s e,
    Sqlite.int_literal st = Some s /\ Sqlite.int_literal en = Some e
    /\ same_records db'
         (alter (push_back {| start := s; end_ := e; name := encode nm |}) t d)
    /\ distinct_tables db'.
Proof.
  intros Hsame Hdist Hex. unfold Sqlite.insert_row.
  destruct (negb _); [discriminate|].
  destruct (Sqlite.int_literal st) as [s|]; [|discriminate].
  destruct (Sqlite.int_literal en) as [e|]; [|discriminate].
  destruct (Sqlite.find_table db t); [|discriminate].
  intros [= <-]. exists s, e. split; [reflexivity|]. split; [reflexivity|].
  pose proof (same_name_exact db t Hdist Hex) as Hall.
  destruct db as [ts ixs]. simpl in *. split.
  - intros c. rewrite (exact_table_append ts ixs t c _ Hall).
    destruct (String.eqb_spec t c) as [->|Hne].
    + rewrite lookup_alter_eq, (Hsame c).
      destruct (d !! c) as [h|]; [|reflexivity].
      simpl. f_equal. unfold push_back. simpl. now rewrite fmap_app.
    + rewrite lookup_alter_ne by assumption. apply Hsame.
  - intros e1 e2 H1 H2. simpl in H1, H2.
    apply in_map_iff in H1 as (x1 & <- & Hx1).
    apply in_map_iff in H2 as (x2 & <- & Hx2).
    assert (Hfst : forall x : string * list Sqlite.row,
              fst (if Sqlite.same_name (fst x) t
                   then (fst x, (snd x ++ [ {| Sqlite.row_name := nm;
                                               Sqlite.row_start := s;
                                               Sqlite.row_end := e |} ])%list)
                   else x) = fst x).
    { intros x. now destruct (Sqlite.same_name (fst x) t). }
    rewrite !Hfst. apply (Hdist x1 x2 Hx1 Hx2).
Qed.

(** Creating the table of a chromosome is what the dictionary build does
    when it meets a new key. *)
Lemma create_table_same_records (db db' : Sqlite.database)
    (d : gmap string VecHolder) (t : string) :
  same_records db d -> distinct_tables db ->
  exact_table db t = None ->
  Sqlite.create_table db t = Return db' ->
  same_records db' (<[t := VecHolder_new]> d)
  /\ distinct_tables db'
  /\ is_Some (exact_table db' t).
Proof.
  intros Hsame Hdist Hnone. unfold Sqlite.create_table.
  destruct (Sqlite.plain_name t); [|discriminate]. simpl.
  destruct (Sqlite.name_in_use db t) eqn:Huse; [discriminate|]. simpl.
  intros [= <-]. split; [|split].
  - intros c. rewrite exact_table_create, (Hsame c).
    destruct (String.eqb_spec t c) as [->|Hne].
    + rewrite lookup_insert_eq.
      rewrite (Hsame c) in Hnone.
      destruct (d !! c); [discriminate | reflexivity].
    + rewrite lookup_insert_ne by assumption.
      now destruct (d !! c).
  - intros e1 e2 H1 H2. simpl in H1, H2.
    apply in_app_iff in H1 as [H1|[<-|[]]];
      apply in_app_iff in H2 as [H2|[<-|[]]]; simpl.
    + apply (Hdist e1 e2 H1 H2).
    + intros Hs. rewrite (name_in_use_table db t e1 Huse H1) in Hs.
      discriminate.
    + intros Hs. rewrite same_name_sym in Hs.
      rewrite (name_in_use_table db t e2 Huse H2) in Hs. discriminate.
    + reflexivity.
  - rewrite exact_table_create, Hnone, String.eqb_refl. eauto.
Qed.

(** One line, read by both builds. *)
Lemma ingest_line_same_records (db db' : Sqlite.database)
    (d : gmap string VecHolder) (line : string) :
  same_records db d -> distinct_tables db ->
  plain_line line = true ->
  ingest_line db line = Return db' ->
  exists d', index_line d line = Return d'
             /\ same_records db' d' /\ distinct_tables db'.
Proof.
  intros Hsame Hdist Hplain. unfold ingest_line.
  destruct (length (fields line) <? 4)%nat eqn:Hlen.
  - intros [= <-]. exists d. split; [|split; assumption].
    apply index_line_short. now apply Nat.ltb_lt.
  - set (f0 := nth 0 (fields line) "").
    assert (Hkey : is_Some (exact_table db f0) <-> is_Some (d !! f0)).
    { rewrite (Hsame f0). destruct (d !! f0); simpl; split;
        intros [x Hx]; try discriminate; eauto. }
    destruct (Sqlite.table_listed db f0) eqn:Hl; cbn [obind].
    + apply table_listed_exact in Hl.
      intros Hins.
      destruct (insert_row_same_records db db' d f0 _ _ _ Hsame Hdist Hl Hins)
        as (s & e & Hs & He & Hsame' & Hdist').
      eexists.
      split; [apply (index_line_literals d line s e Hlen Hplain Hs He)|].
      fold f0. rewrite bool_decide_eq_true_2 by now apply Hkey.
      split; assumption.
    + assert (Hnone : exact_table db f0 = None).
      { destruct (exact_table db f0) eqn:E; [|reflexivity].
        assert (Ht : Sqlite.table_listed db f0 = true)
          by (apply table_listed_exact; rewrite E; eauto).
        congruence. }
      destruct (Sqlite.create_table db f0) as [db1| |] eqn:Hcr; cbn [obind];
        try discriminate.
      destruct (create_table_same_records db db1 d f0 Hsame Hdist Hnone Hcr)
        as (Hsame1 & Hdist1 & Hex1).
      intros Hins.
      destruct (insert_row_same_records db1 db' _ f0 _ _ _
                  Hsame1 Hdist1 Hex1 Hins)
        as (s & e & Hs & He & Hsame' & Hdist').
      eexists.
      split; [apply (index_line_literals d line s e Hlen Hplain Hs He)|].
      fold f0. rewrite bool_decide_eq_false_2.
      * split; assumption.
      * intros Hin. apply Hkey in Hin. rewrite Hnone in Hin.
        destruct Hin as [x Hx]. discriminate.
Qed.

Lemma ingest_same_records (lines : list string) (db db' : Sqlite.database)
    (d : gmap string VecHolder) :
  same_records db d -> distinct_tables db ->
  forallb plain_line lines = true ->
  ingest lines db = Return db' ->
  exists d', index_lines lines d = Return d'
             /\ same_records db' d' /\ distinct_tables db'.
Proof.
  revert db d.
  induction lines as [|line rest IH]; cbn [forallb ingest index_lines];
    intros db d Hs Hd Hplain.
  - intros [= <-]. eauto.
  - apply andb_true_iff in Hplain as [Hline Hrest].
    destruct (ingest_line db line) as [db1| |] eqn:E; cbn [obind];
      try discriminate.
    destruct (ingest_line_same_records db db1 d line Hs Hd Hline E)
      as (d1 & -> & Hs1 & Hd1).
    cbn [obind]. now apply IH.
Qed.

Lemma same_records_empty : same_records Sqlite.empty ∅.
Proof. intros c. now rewrite lookup_empty. Qed.

Lemma distinct_tables_empty : distinct_tables Sqlite.empty.
Proof. intros e1 e2 []. Qed.

Lemma has_index_app (db : Sqlite.database) (more : list (string * string))
    (i t : string) :
  Sqlite.has_index db i t = true ->
  Sqlite.has_index {| Sqlite.tables := Sqlite.tables db;
                      Sqlite.indexes := (Sqlite.indexes db ++ more)%list |} i t
  = true.
Proof.
  unfold Sqlite.has_index. simpl. intros H.
  rewrite existsb_app, H. reflexivity.
Qed.

(** Creating the indexes leaves the tables alone and gives each of the
    listed tables the index that the query names. *)
Lemma create_indexes_spec (ts : list string) (db db' : Sqlite.database) :
  create_indexes ts db = Return db' ->
  Sqlite.tables db' = Sqlite.tables db
  /\ (forall i t, Sqlite.has_index db i t = true ->
                  Sqlite.has_index db' i t = true)
  /\ (forall t, In t ts ->
        Sqlite.has_index db' (t +:+ "_start_end") t = true).
Proof.
  revert db. induction ts as [|t ts IH]; simpl; intros db.
  - intros [= <-]. split; [reflexivity|]. split; [auto | intros t []].
  - unfold Sqlite.create_index at 1.
    destruct (_ && _ && _ && _); cbn [obind]; [|discriminate].
    intros H. apply IH in H as (Htab & Hmono & Hall). simpl in Htab.
    split; [exact Htab|]. split.
    + intros i t' Hi. apply Hmono. now apply has_index_app.
    + intros t' [<-|Hin]; [|now apply Hall].
      apply Hmono. unfold Sqlite.has_index. simpl.
      rewrite existsb_app. simpl.
      rewrite !same_name_refl. simpl. now rewrite orb_true_r.
Qed.

(** From plain lines, what the sqlite build stores is what the
    dictionary build indexes. *)
Lemma sqlite_build_agrees (lines : list string) (db : Sqlite.database) :
  forallb plain_line lines = true ->
  (let? db0 := ingest lines Sqlite.empty in
   create_indexes (fst <$> Sqlite.tables db0) db0) = Return db ->
  exists d, index_lines lines ∅ = Return d /\ stores_agree db d.
Proof.
  intros Hplain.
  destruct (ingest lines Sqlite.empty) as [db0| |] eqn:E; cbn [obind];
    try discriminate.
  intros Hidx.
  destruct (ingest_same_records lines Sqlite.empty db0 ∅
              same_records_empty distinct_tables_empty Hplain E)
    as (d & Hd & Hsame & Hdist).
  apply create_indexes_spec in Hidx as (Htab & _ & Hall).
  exists d. split; [exact Hd|].
  assert (Hex : forall c, exact_table db c = exact_table db0 c).
  { intros c. unfold exact_table. now rewrite Htab. }
  split; [|split].
  - intros c. rewrite Hex. apply Hsame.
  - intros e1 e2. rewrite Htab. apply Hdist.
  - intros c Hc. apply Hall.
    assert (Hin : exists rows, exact_table db0 c = Some rows).
    { rewrite (Hsame c). destruct Hc as [h ->]. simpl. eauto. }
    destruct Hin as [rows Hrows]. apply exact_table_in in Hrows.
    apply in_map_iff. exists (c, rows). split; [reflexivity | exact Hrows].
Qed.

(** X12.  Let every line of the file that has four fields or more be
    plain: its two bounds are written as integer literals (digits,
    possibly after a minus sign, no underscore, sign or whitespace
    otherwise), of a value in the 64-bit range and with no more digits
    than [int] goes through, its chromosome can stand as a table name and
    its name has no quote character.  When [_init_sqlite] builds a new
    database from such a file and returns, the dictionary build of the
    same file succeeds as well, and the database holds what the
    dictionary holds: one table for each key, with the rows
    [(name, start, end)] of the records under that key in the order of
    the file, no two tables with names that differ in case only, and on
    each table the index that the lookup names.  (Off the plain lines the
    two builds part: a bound such as [abc] stops the dictionary build,
    while sqlite is handed the text as it is.) *)
Theorem sqlite_store_holds_dict_records (bedfile conn : string)
    (w w' : world) (lines : list string) :
  databases w !! (bedfile +:+ ".db") = None ->
  files w !! (bedfile +:+ ".db") = None ->
  files w !! bedfile = Some lines ->
  forallb plain_line lines = true ->
  _init_sqlite bedfile w = (Return conn, w') ->
  exists db d,
    databases w' !! conn = Some db
    /\ _init_dict bedfile w = (Return d, w)
    /\ stores_agree db d.
Proof.
  intros Hdb Hfile Hlines Hplain.
  unfold _init_sqlite, bind, stderr_write, path_exists, store, open_, lift, ret.
  simpl. rewrite Hdb, Hfile.
  rewrite !bool_decide_eq_false_2
    by (intros [x Hx]; discriminate).
  simpl. rewrite Hlines.
  destruct (let? db := ingest lines Sqlite.empty
            in create_indexes (fst <$> Sqlite.tables db) db)
    as [db| |] eqn:E; try discriminate.
  intros [= <- <-]. simpl.
  destruct (sqlite_build_agrees lines db Hplain E) as (d & Hd & Hagree).
  exists db, d. split; [apply lookup_insert_eq|]. split; [|exact Hagree].
  unfold _init_dict, bind, open_, lift. now rewrite Hlines, Hd.
Qed.

Lemma sqlite_store_holds_dict_records_witness :
  exists db d,
    databases (snd (_init_sqlite "genes.bed" genes_world)) !! "genes.bed.db"
    = Some db
    /\ _init_dict "genes.bed" genes_world = (Return d, genes_world)
    /\ stores_agree db d.
Proof.
  apply (sqlite_store_holds_dict_records "genes.bed" "genes.bed.db"
           genes_world (snd (_init_sqlite "genes.bed" genes_world)) genes_bed).
  - vm_compute. reflexivity.
  - vm_compute. reflexivity.
  - vm_compute. reflexivity.
  - vm_compute. reflexivity.
  - vm_compute. reflexivity.
Defined.

(** ** What a sqlite lookup returns *)

Section LookupSqlite.

Variables (conn chromosome location : string) (p : Z).
Variables (db : Sqlite.database) (w : world).

Hypothesis connected : databases w !! conn = Some db.
Hypothesis plain_table : Sqlite.plain_name chromosome = true.
Hypothesis plain_index : Sqlite.plain_name (chromosome +:+ "_start_end") = true.
Hypothesis literal : Sqlite.int_literal location = Some p.


Lemma lookup_sqlite_no_index (rows : list Sqlite.row) :
  Sqlite.find_table db chromosome = Some rows ->
  Sqlite.has_index db (chromosome +:+ "_start_end") chromosome = false ->
  _lookup_sqlite conn chromosome location w
  = (Raise (OperationalError
              ("no such index: " +:+ (chromosome +:+ "_start_end"))), w).
Proof.
  intros Ht Hi. unfold _lookup_sqlite, query, Sqlite.select_between.
  rewrite connected, plain_table, plain_index, literal, Ht, Hi. reflexivity.
Qed.

Lemma lookup_sqlite_rows (rows : list Sqlite.row) :
  Sqlite.find_table db chromosome = Some rows ->
  Sqlite.has_index db (chromosome +:+ "_start_end") chromosome = true ->
  _lookup_sqlite conn chromosome location w
  = match List.filter (Sqlite.between p) (Sqlite.index_order rows) with
    | [] => (Return "", wrote w (location_warning location chromosome))
    | hit :: _ => (Return (Sqlite.row_name hit), w)
    end.
Proof.
  intros Ht Hi. unfold _lookup_sqlite, query, Sqlite.select_between.
  rewrite connected, plain_table, plain_index, literal, Ht, Hi. simpl.
  now destruct (List.filter (Sqlite.between p) (Sqlite.index_order rows)).
Qed.

End LookupSqlite.

Lemma filter_none {A} (f : A -> bool) (l : list A) :
  (forall x, In x l -> f x = false) -> List.filter f l = [].
Proof.
  induction l as [|x l IH]; simpl; intros H; [reflexivity|].
  rewrite (H x (or_introl eq_refl)). apply IH. intros y Hy. apply H. now right.
Qed.

(** Off the bounds of a record, [BETWEEN] and the strict comparison of
    the dictionary loop say the same. *)
Lemma between_covers (t : StartEnd) (p : Z) :
  p <> start t -> p <> end_ t -> Sqlite.between p (row_of t) = covers p t.
Proof.
  intros Hs He. unfold Sqlite.between, covers, row_of. simpl.
  destruct (start t <=? p) eqn:E1, (start t <? p) eqn:E2,
           (p <=? end_ t) eqn:E3, (p <? end_ t) eqn:E4; try reflexivity;
    repeat match goal with
           | E : (_ <=? _) = true |- _ => apply Z.leb_le in E
           | E : (_ <=? _) = false |- _ => apply Z.leb_gt in E
           | E : (_ <? _) = true |- _ => apply Z.ltb_lt in E
           | E : (_ <? _) = false |- _ => apply Z.ltb_ge in E
           end; lia.
Qed.

(** Off the bounds, and with one non-empty name among the records that
    cover the position, the sqlite lookup on a key of the dictionary ends
    as the loop of the dictionary lookup says: with the answer of the
    loop, or with the warning when the loop finds none. *)
Lemma lookup_sqlite_as_scan (conn chromosome s : string) (p : Z)
    (db : Sqlite.database) (d : gmap string VecHolder) (holder : VecHolder)
    (w : world) :
  databases w !! conn = Some db ->
  stores_agree db d ->
  Sqlite.plain_name chromosome = true ->
  Sqlite.plain_name (chromosome +:+ "_start_end") = true ->
  Sqlite.int_literal s = Some p ->
  d !! chromosome = Some holder ->
  (forall t, In t (wrapped_vector holder) -> p <> start t /\ p <> end_ t) ->
  (forall t t', In t (wrapped_vector holder) ->
                In t' (wrapped_vector holder) ->
                covers p t = true -> covers p t' = true ->
                name t = name t' /\ name t <> "") ->
  _lookup_sqlite conn chromosome s w
  = if is_empty (scan (wrapped_vector holder) p)
    then (Return "", wrote w (location_warning s chromosome))
    else (Return (scan (wrapped_vector holder) p), w).
Proof.
  intros Hconn (Hsame & Hdist & Hidx) Hpc Hpi Hlit Hc Hoff Hname.
  assert (Hex : exact_table db chromosome
                = Some (row_of <$> wrapped_vector holder)).
  { rewrite (Hsame chromosome), Hc. reflexivity. }
  assert (Hft : Sqlite.find_table db chromosome
                = Some (row_of <$> wrapped_vector holder)).
  { rewrite find_table_exact; [exact Hex | exact Hdist |].
    rewrite Hex. eauto. }
  rewrite (lookup_sqlite_rows conn chromosome s p db w Hconn Hpc Hpi Hlit
             _ Hft (Hidx chromosome (ltac:(rewrite Hc; eauto)))).
  set (v := wrapped_vector holder) in *.
  assert (Hrows : forall r,
            In r (List.filter (Sqlite.between p)
                    (Sqlite.index_order (row_of <$> v))) ->
            exists t, In t v /\ r = row_of t /\ covers p t = true).
  { intros r Hr. apply filter_In in Hr as [Hr Hb].
    rewrite index_order_in in Hr.
    apply in_map_iff in Hr as (t & <- & Ht).
    exists t. split; [exact Ht|]. split; [reflexivity|].
    destruct (Hoff t Ht) as [H1 H2].
    now rewrite <- (between_covers t p H1 H2). }
  rewrite scan_find.
  destruct (List.find (covers p) v) as [t|] eqn:Hfind.
  - destruct (find_some _ _ Hfind) as [Ht Hcov].
    destruct (Hname t t Ht Ht Hcov Hcov) as [_ Hne].
    unfold decode.
    destruct (name t) as [|c0 n0] eqn:Hn; [now destruct Hne|].
    cbn [is_empty]. rewrite <- Hn.
    destruct (List.filter (Sqlite.between p)
                (Sqlite.index_order (row_of <$> v))) as [|hit rest] eqn:E.
    + assert (Hin : In (row_of t)
                      (List.filter (Sqlite.between p)
                         (Sqlite.index_order (row_of <$> v)))).
      { apply filter_In. split.
        - apply index_order_in. apply in_map_iff. eauto.
        - destruct (Hoff t Ht) as [H1 H2].
          now rewrite (between_covers t p H1 H2). }
      rewrite E in Hin. destruct Hin.
    + destruct (Hrows hit (or_introl eq_refl)) as (t' & Ht' & -> & Hcov').
      destruct (Hname t t' Ht Ht' Hcov Hcov') as [Heq _].
      simpl. unfold decode. now rewrite Heq.
  - cbn [is_empty].
    rewrite filter_none; [reflexivity|].
    intros r Hr. rewrite index_order_in in Hr.
    apply in_map_iff in Hr as (t & <- & Ht).
    destruct (Hoff t Ht) as [H1 H2].
    rewrite (between_covers t p H1 H2).
    destruct (covers p t) eqn:Hcov; [|reflexivity].
    now rewrite (find_none _ _ Hfind t Ht) in Hcov.
Qed.


Lemma genes_stores_agree : stores_agree genes_db genes_index.
Proof.
  destruct (sqlite_build_agrees genes_bed genes_db) as (d & Hd & Hagree).
  - vm_compute. reflexivity.
  - vm_compute. reflexivity.
  - assert (Hi : index_lines genes_bed ∅ = Return genes_index)
      by (vm_compute; reflexivity).
    rewrite Hi in Hd. injection Hd as <-. exact Hagree.
Qed.




(** X15.  Any other [OperationalError] is raised again.  When the table
    of the chromosome is there but the index that the query names is
    not (a database file left by a build that did not reach the creation
    of the indexes is used as it is), every sqlite-backed lookup on that
    chromosome raises, and nothing is written. *)
Theorem sqlite_lookup_without_index_raises (conn chromosome : string)
    (location : pyval) (s : string) (p : Z) (db : Sqlite.database)
    (rows : list Sqlite.row) (w : world) :
  databases w !! conn = Some db ->
  Sqlite.plain_name chromosome = true ->
  Sqlite.plain_name (chromosome +:+ "_start_end") = true ->
  str location = Return s ->
  Sqlite.int_literal s = Some p ->
  Sqlite.find_table db chromosome = Some rows ->
  Sqlite.has_index db (chromosome +:+ "_start_end") chromosome = false ->
  exists msg,
    lookup (Sq conn) chromosome location w = (Raise (OperationalError msg), w).
Proof.
  intros Hconn Hpc Hpi Hstr Hlit Ht Hi.
  unfold lookup, bind, lift. rewrite Hstr.
  eexists.
  now apply (lookup_sqlite_no_index conn chromosome s p db w
               Hconn Hpc Hpi Hlit rows).
Qed.

Lemma sqlite_lookup_without_index_raises_witness :
  exists msg,
    lookup (Sq "genes.bed.db") "chr1" (PyInt 120) unindexed_db_world
    = (Raise (OperationalError msg), unindexed_db_world).
Proof.
  apply (sqlite_lookup_without_index_raises "genes.bed.db" "chr1" (PyInt 120)
           "120" 120 unindexed_db
           [ {| Sqlite.row_name := "GENE_A";
                Sqlite.row_start := 100; Sqlite.row_end := 200 |} ]
           unindexed_db_world); vm_compute; reflexivity.
Defined.

(** X16.  A sqlite-backed lookup on a chromosome that has its table and
    index answers exactly when some row of the table has
    [start <= p <= end], both bounds included: it then returns the name
    of such a row and writes nothing, also when that name is empty
    (the dictionary would warn there); when no row has, it returns the
    empty string and writes the warning that names location and
    chromosome. *)
Theorem sqlite_lookup_answers_iff_between (conn chromosome : string)
    (location : pyval) (s : string) (p : Z) (db : Sqlite.database)
    (rows : list Sqlite.row) (w : world) :
  databases w !! conn = Some db ->
  Sqlite.plain_name chromosome = true ->
  Sqlite.plain_name (chromosome +:+ "_start_end") = true ->
  str location = Return s ->
  Sqlite.int_literal s = Some p ->
  Sqlite.find_table db chromosome = Some rows ->
  Sqlite.has_index db (chromosome +:+ "_start_end") chromosome = true ->
  ((forall r, In r rows -> ~ Sqlite.row_start r <= p <= Sqlite.row_end r) ->
     lookup (Sq conn) chromosome location w
     = (Return "", wrote w (location_warning s chromosome)))
  /\ (forall r, In r rows -> Sqlite.row_start r <= p <= Sqlite.row_end r ->
        exists hit,
          In hit rows
          /\ Sqlite.row_start hit <= p <= Sqlite.row_end hit
          /\ lookup (Sq conn) chromosome location w
             = (Return (Sqlite.row_name hit), w)).
Proof.
  intros Hconn Hpc Hpi Hstr Hlit Ht Hi.
  unfold lookup, bind, lift. rewrite Hstr.
  rewrite (lookup_sqlite_rows conn chromosome s p db w Hconn Hpc Hpi Hlit
             rows Ht Hi).
  split.
  - intros Hnone. rewrite filter_none; [reflexivity|].
    intros r Hr. rewrite index_order_in in Hr.
    destruct (Sqlite.between p r) eqn:E; [|reflexivity].
    apply between_iff in E. now destruct (Hnone r Hr).
  - intros r Hr Hb.
    assert (Hin : In r (List.filter (Sqlite.between p)
                          (Sqlite.index_order rows))).
    { apply filter_In. split; [now apply index_order_in|].
      now apply between_iff. }
    destruct (List.filter (Sqlite.between p) (Sqlite.index_order rows))
      as [|hit rest] eqn:E; [destruct Hin|].
    assert (Hhit : In hit (List.filter (Sqlite.between p)
                             (Sqlite.index_order rows)))
      by (rewrite E; now left).
    apply filter_In in Hhit as [Hhit Hbh].
    rewrite index_order_in in Hhit. apply between_iff in Hbh.
    exists hit. auto.
Qed.

Lemma sqlite_lookup_answers_iff_between_witness :
  exists hit,
    In hit [ {| Sqlite.row_name := "GENE_C";
                Sqlite.row_start := 10; Sqlite.row_end := 20 |} ]
    /\ Sqlite.row_start hit <= 20 <= Sqlite.row_end hit
    /\ lookup (Sq "genes.bed.db") "chr2" (PyInt 20) genes_db_world
       = (Return (Sqlite.row_name hit), genes_db_world).
Proof.
  destruct (sqlite_lookup_answers_iff_between "genes.bed.db" "chr2" (PyInt 20)
              "20" 20 genes_db
              [ {| Sqlite.row_name := "GENE_C";
                   Sqlite.row_start := 10; Sqlite.row_end := 20 |} ]
              genes_db_world) as [_ Hhit]; try (vm_compute; reflexivity).
  apply (Hhit {| Sqlite.row_name := "GENE_C";
                 Sqlite.row_start := 10; Sqlite.row_end := 20 |}).
  - now left.
  - simpl. lia.
Defined.

(** ** What lookups and construction leave alone *)

(** X17.  A lookup only reads: whatever the backend, the location and the
    outcome, the files, the databases and the output of [wc] are after
    the call as they were before, and stderr has grown by one message at
    most. *)
Theorem lookup_only_reads (self : BedFile) (chromosome : string)
    (location : pyval) (w : world) :
  let w' := snd (lookup self chromosome location w) in
  files w' = files w
  /\ databases w' = databases w
  /\ wc_l w' = wc_l w
  /\ (stderr w' = stderr w \/ exists msg, stderr w' = (stderr w ++ [msg])%list).
Proof.
  assert (Hsame : forall w', w' = w ->
            files w' = files w /\ databases w' = databases w
            /\ wc_l w' = wc_l w
            /\ (stderr w' = stderr w
                \/ exists msg, stderr w' = (stderr w ++ [msg])%list)).
  { intros w' ->. auto. }
  assert (Hwrote : forall msg,
            files (wrote w msg) = files w
            /\ databases (wrote w msg) = databases w
            /\ wc_l (wrote w msg) = wc_l w
            /\ (stderr (wrote w msg) = stderr w
                \/ exists m, stderr (wrote w msg) = (stderr w ++ [m])%list)).
  { intros msg. simpl. eauto 6. }
  destruct self as [d|conn]; simpl.
  - destruct (lookup_dict_cases d chromosome location w)
      as [(e & _ & E)|[(z & _ & _ & E)|(p & _ & _ & Hrest)]];
      try (rewrite E; now apply Hsame).
    destruct Hrest as [[_ E]|(holder & _ & Hrest)].
    { rewrite E. apply Hwrote. }
    destruct Hrest as [[_ E]|[_ [(s' & _ & E)|[_ E]]]]; rewrite E;
      try (now apply Hsame); apply Hwrote.
  - unfold bind, lift.
    destruct (str location) as [s|e|]; try (now apply Hsame).
    unfold _lookup_sqlite, query.
    destruct (databases w !! conn) as [db|]; [|now apply Hsame].
    destruct (Sqlite.select_between db chromosome _ s) as [names|e|];
      [| |now apply Hsame].
    + destruct names; [apply Hwrote | now apply Hsame].
    + destruct e; try (now apply Hsame).
      destruct (String.prefix "no such table" msg);
        [apply Hwrote | now apply Hsame].
Qed.

Lemma init_sqlite_files (bedfile : string) (w : world) :
  files (snd (_init_sqlite bedfile w)) = files w.
Proof.
  unfold _init_sqlite, bind, stderr_write, path_exists, store, open_, lift, ret.
  simpl.
  destruct (bool_decide _ || bool_decide _); simpl; [reflexivity|].
  destruct (files w !! bedfile) as [lines|]; [|reflexivity].
  destruct (let? db := ingest lines Sqlite.empty
            in create_indexes (fst <$> Sqlite.tables db) db); reflexivity.
Qed.

Lemma line_count_snd (bedfile : string) (w : world) :
  snd (line_count bedfile w) = w.
Proof.
  unfold line_count, bind, sub_wc_l, lift.
  destruct (wc_l w bedfile); reflexivity.
Qed.

(** X18.  Construction never writes a text file: the BED file and every
    other file are after [__init__] as they were before, however it
    ends.  On the dictionary path it changes nothing at all: no database
    appears and nothing is written to stderr, also when the build
    fails. *)
Theorem init_leaves_files (bedfile : string) (w : world) :
  files (snd (__init__ bedfile w)) = files w
  /\ forall n, fst (line_count bedfile w) = Return n -> n <= _max_len ->
               snd (__init__ bedfile w) = w.
Proof.
  split.
  - unfold __init__, bind at 1.
    pose proof (line_count_snd bedfile w) as Hw.
    destruct (line_count bedfile w) as [[n| |] w1]; simpl in Hw; subst w1;
      try reflexivity.
    destruct (n >? _max_len); unfold bind, ret.
    + pose proof (init_sqlite_files bedfile w) as H.
      destruct (_init_sqlite bedfile w) as [[conn| |] w2]; exact H.
    + pose proof (init_dict_world bedfile w) as H.
      destruct (_init_dict bedfile w) as [[d| |] w2]; simpl in *; now subst.
  - intros n Hn Hle. rewrite (init_dict_branch bedfile w n Hn Hle).
    destruct (files w !! bedfile) as [lines|]; [|reflexivity].
    destruct (index_lines lines ∅); reflexivity.
Qed.

Lemma init_leaves_files_witness :
  snd (__init__ "genes.bed" (world_with genes_bed_bad "3"))
  = world_with genes_bed_bad "3".
Proof.
  destruct (init_leaves_files "genes.bed" (world_with genes_bed_bad "3"))
    as [_ H].
  apply (H 3).
  - vm_compute. reflexivity.
  - vm_compute. discriminate.
Defined.

(** ** The sqlite build reads lines as the dictionary build does *)

Lemma ingest_app (l1 l2 : list string) (db : Sqlite.database) :
  ingest (l1 ++ l2) db = (let? db' := ingest l1 db in ingest l2 db').
Proof.
  revert db. induction l1 as [|line l1 IH]; intros db; simpl; [reflexivity|].
  destruct (ingest_line db line); simpl; auto.
Qed.

(** X19.  The sqlite build skips a line with fewer than four fields as
    silently as the dictionary build does: the rows ingested from a file
    with such a line are those ingested from the file without it. *)
Theorem sqlite_build_skips_short_line (before after : list string)
    (line : string) (db : Sqlite.database) :
  (length (fields line) < 4)%nat ->
  ingest (before ++ line :: after) db = ingest (before ++ after) db.
Proof.
  intros H. rewrite !ingest_app.
  destruct (ingest before db) as [db'| |]; simpl; try reflexivity.
  now rewrite ingest_line_short.
Qed.

Lemma sqlite_build_skips_short_line_witness :
  ingest genes_bed_short Sqlite.empty = ingest genes_bed Sqlite.empty.
Proof.
  apply (sqlite_build_skips_short_line
           [tsv ["chr1"; "100"; "200"; "GENE_A"]]
           [tsv ["chr1"; "150"; "250"; "GENE_B"];
            tsv ["chr2"; "10"; "20"; "GENE_C"]]
           (tsv ["chr1"; "track"]) Sqlite.empty).
  vm_compute. lia.
Defined.

(** ** Integer positions on the sqlite path *)

Lemma all_digits_string_of_uint (d : Decimal.uint) :
  Sqlite.all_digits (NilEmpty.string_of_uint d) = true.
Proof. induction d; simpl; auto. Qed.

(** Reading back the digits that [str] writes. *)
Lemma int_digits_string_of_uint (d : Decimal.uint) (acc : Z) :
  int_digits (NilEmpty.string_of_uint d) acc true
  = Some (acc * 10 ^ Z.of_N (DecimalPos.Unsigned.usize d)
          + Z.of_N (DecimalPos.Unsigned.of_lu (Decimal.rev d))).
Proof.
  revert acc.
  induction d; intros acc;
    [ simpl; f_equal; lia | .. ];
    unfold Decimal.rev; cbn [Decimal.revapp];
    rewrite DecimalPos.Unsigned.of_lu_revapp;
    cbn [NilEmpty.string_of_uint int_digits DecimalPos.Unsigned.usize];
    (replace (isdigit _) with true by reflexivity);
    rewrite IHd; f_equal;
    rewrite N2Z.inj_add, N2Z.inj_mul, N2Z.inj_pow, N2Z.inj_succ, Z.pow_succ_r
      by apply N2Z.is_nonneg;
    repeat match goal with
           | |- context [Z.of_N ?t] =>
               is_ground t;
               let v := eval vm_compute in (Z.of_N t) in
               change (Z.of_N t) with v
           | |- context [digit_value ?c] =>
               let v := eval vm_compute in (digit_value c) in
               change (digit_value c) with v
           end;
    ring.
Qed.

Lemma int_digits_first (d : Decimal.uint) :
  d <> Decimal.Nil ->
  int_digits (NilEmpty.string_of_uint d) 0 false
  = int_digits (NilEmpty.string_of_uint d) 0 true.
Proof. destruct d; [now intros [] | reflexivity ..]. Qed.

Lemma string_of_uint_head (d : Decimal.uint) :
  d <> Decimal.Nil ->
  exists c s, NilEmpty.string_of_uint d = String c s /\ c <> "-"%char.
Proof.
  destruct d; [now intros [] | ..]; intros _; simpl;
    eexists _, _; (split; [reflexivity | discriminate]).
Qed.

(** The digits of a positive number, read back. *)
Lemma int_digits_pos (q : positive) :
  int_digits (NilEmpty.string_of_uint (Pos.to_uint q)) 0 false
  = Some (Z.pos q).
Proof.
  rewrite int_digits_first by apply DecimalPos.Unsigned.to_uint_nonnil.
  rewrite int_digits_string_of_uint. f_equal.
  rewrite <- DecimalPos.Unsigned.of_uint_alt, DecimalPos.Unsigned.of_to.
  reflexivity.
Qed.

(** An integer in the range of a C long has far fewer digits than [str]
    goes through. *)
Lemma long_below_digit_limit (z : Z) :
  is_long z -> (10 ^ int_max_str_digits <=? Z.abs z) = false.
Proof.
  unfold is_long, LONG_MIN, LONG_MAX. intros H. apply Z.leb_gt.
  assert (Hlim : 2 ^ 63 < 10 ^ int_max_str_digits)
    by (vm_compute; reflexivity).
  set (limit := 10 ^ int_max_str_digits) in *.
  set (bound := 2 ^ 63) in *. lia.
Qed.

(** The text that [str] makes of an integer in the range of a C long is
    an integer literal for sqlite, with that integer as its value. *)
Lemma int_literal_str (z : Z) :
  is_long z ->
  exists s, str (PyInt z) = Return s /\ Sqlite.int_literal s = Some z.
Proof.
  intros Hz. unfold str. rewrite (long_below_digit_limit z Hz).
  destruct Hz as [Hlo Hhi]. eexists. split; [reflexivity|].
  assert (Hr : (LONG_MIN <=? z) && (z <=? LONG_MAX) = true).
  { apply andb_true_iff. split; now apply Z.leb_le. }
  destruct z as [|q|q].
  - reflexivity.
  - unfold Z.to_int, NilZero.string_of_int, NilZero.string_of_uint.
    pose proof (DecimalPos.Unsigned.to_uint_nonnil q) as Hnil.
    destruct (string_of_uint_head _ Hnil) as (c & s & Hs & Hc).
    replace (match Pos.to_uint q with
             | Decimal.Nil => "0"
             | _ => NilEmpty.string_of_uint (Pos.to_uint q)
             end) with (NilEmpty.string_of_uint (Pos.to_uint q))
      by (now destruct (Pos.to_uint q)).
    rewrite Hs, (int_literal_no_sign c s Hc), <- Hs.
    now rewrite all_digits_string_of_uint, int_digits_pos, Hr.
  - unfold Z.to_int, NilZero.string_of_int, NilZero.string_of_uint.
    pose proof (DecimalPos.Unsigned.to_uint_nonnil q) as Hnil.
    replace (match Pos.to_uint q with
             | Decimal.Nil => "0"
             | _ => NilEmpty.string_of_uint (Pos.to_uint q)
             end) with (NilEmpty.string_of_uint (Pos.to_uint q))
      by (now destruct (Pos.to_uint q)).
    unfold Sqlite.int_literal.
    rewrite all_digits_string_of_uint, int_digits_pos.
    change (- Z.pos q) with (Z.neg q). now rewrite Hr.
Qed.

(** X20.  Integer positions.  On a key of the dictionary, under the
    conditions of X13 and for an integer position in the range of a C
    long, the two backends return the same name when a record covers the
    position, and nothing is written.  When none does, they part: the
    sqlite-backed lookup returns the empty string and writes the warning
    with the decimal text of the position, the dictionary-backed lookup
    raises [TypeError]. *)
Theorem backends_on_integer_positions (conn chromosome : string) (p : Z)
    (db : Sqlite.database) (d : gmap string VecHolder) (holder : VecHolder)
    (w : world) :
  databases w !! conn = Some db ->
  stores_agree db d ->
  Sqlite.plain_name chromosome = true ->
  Sqlite.plain_name (chromosome +:+ "_start_end") = true ->
  is_long p ->
  d !! chromosome = Some holder ->
  (forall t, In t (wrapped_vector holder) -> p <> start t /\ p <> end_ t) ->
  (forall t t', In t (wrapped_vector holder) ->
                In t' (wrapped_vector holder) ->
                covers p t = true -> covers p t' = true ->
                name t = name t' /\ name t <> "") ->
  (forall t, In t (wrapped_vector holder) -> covers p t = true ->
     lookup (Sq conn) chromosome (PyInt p) w = (Return (name t), w)
     /\ lookup (Dt d) chromosome (PyInt p) w = (Return (name t), w))
  /\ ((forall t, In t (wrapped_vector holder) -> covers p t = false) ->
      exists s,
        str (PyInt p) = Return s
        /\ lookup (Sq conn) chromosome (PyInt p) w
           = (Return "", wrote w (location_warning s chromosome))
        /\ lookup (Dt d) chromosome (PyInt p) w = (Raise TypeError, w)).
Proof.
  intros Hconn Hagree Hpc Hpi Hp Hc Hoff Hname.
  destruct (int_literal_str p Hp) as (s & Hstr & Hlit).
  pose proof (lookup_sqlite_as_scan conn chromosome s p db d holder w
                Hconn Hagree Hpc Hpi Hlit Hc Hoff Hname) as Hsq.
  assert (Hlk : lookup (Sq conn) chromosome (PyInt p) w
                = _lookup_sqlite conn chromosome s w).
  { unfold lookup, bind, lift. now rewrite Hstr. }
  split.
  - intros t Ht Hcov.
    assert (Hscan : scan (wrapped_vector holder) p = name t).
    { rewrite scan_find.
      destruct (List.find (covers p) (wrapped_vector holder)) as [t'|] eqn:Hf.
      - destruct (find_some _ _ Hf) as [Ht' Hcov'].
        unfold decode. symmetry.
        exact (proj1 (Hname t t' Ht Ht' Hcov Hcov')).
      - now rewrite (find_none _ _ Hf t Ht) in Hcov. }
    destruct (Hname t t Ht Ht Hcov Hcov) as [_ Hne].
    rewrite Hlk, Hsq, Hscan. split.
    + destruct (name t); [now destruct Hne | reflexivity].
    + cbn [lookup].
      rewrite (lookup_dict_answer d chromosome w (PyInt p) p holder
                 eq_refl Hp Hc); rewrite Hscan; [reflexivity | exact Hne].
  - intros Hnone. exists s. split; [exact Hstr|].
    assert (Hscan : scan (wrapped_vector holder) p = "").
    { apply scan_none. apply List.Forall_forall. exact Hnone. }
    rewrite Hlk, Hsq, Hscan. split; [reflexivity|].
    cbn [lookup].
    apply (lookup_dict_empty_other d chromosome w (PyInt p) p holder);
      [discriminate | reflexivity | exact Hp | exact Hc | exact Hscan].
Qed.

Lemma backends_on_integer_positions_witness :
  lookup (Sq "genes.bed.db") "chr2" (PyInt 15) genes_db_world
  = (Return "GENE_C", genes_db_world)
  /\ lookup (Dt genes_index) "chr2" (PyInt 15) genes_db_world
     = (Return "GENE_C", genes_db_world).
Proof.
  destruct (backends_on_integer_positions "genes.bed.db" "chr2" 15
              genes_db genes_index
              {| wrapped_vector :=
                   [ {| start := 10; end_ := 20; name := "GENE_C" |} ] |}
              genes_db_world) as [Hhit _].
  - vm_compute. reflexivity.
  - exact genes_stores_agree.
  - vm_compute. reflexivity.
  - vm_compute. reflexivity.
  - unfold is_long. vm_compute. split; discriminate.
  - vm_compute. reflexivity.
  - intros t [<-|[]]. split; discriminate.
  - intros t t' [<-|[]] [<-|[]] _ _. split; [reflexivity | discriminate].
  - apply (Hhit {| start := 10; end_ := 20; name := "GENE_C" |}).
    + now left.
    + vm_compute. reflexivity.
Defined.

(** ** Which files can be built *)

Lemma in_long_iff (z : Z) : in_long z = true <-> is_long z.
Proof.
  unfold in_long, is_long. rewrite andb_true_iff, !Z.leb_le. tauto.
Qed.

Lemma index_line_accepted (d : gmap string VecHolder) (line : string) :
  (exists d', index_line d line = Return d') <-> line_accepted line = true.
Proof.
  unfold line_accepted. split.
  - intros [d' H].
    apply index_line_return in H
      as [[Hlen _]|(st & en & Hlen & Hst & Hen & Hs & He & _)].
    + apply Nat.ltb_lt in Hlen. now rewrite Hlen.
    + rewrite Hst, Hen.
      apply in_long_iff in Hs. apply in_long_iff in He.
      rewrite Hs, He. apply orb_true_r.
  - intros H. destruct (length (fields line) <? 4)%nat eqn:Hlen.
    + exists d. apply index_line_short. now apply Nat.ltb_lt.
    + simpl in H.
      destruct (int_of_str (nth 1 (fields line) "")) as [st|] eqn:Hst;
        [|discriminate].
      destruct (int_of_str (nth 2 (fields line) "")) as [en|] eqn:Hen;
        [|discriminate].
      apply andb_true_iff in H as [Hs He].
      apply in_long_iff in Hs. apply in_long_iff in He.
      apply Nat.ltb_ge in Hlen.
      now apply (index_line_ok d line st en).
Qed.

Lemma index_lines_accepted (lines : list string) (d : gmap string VecHolder) :
  (exists d', index_lines lines d = Return d')
  <-> forallb line_accepted lines = true.
Proof.
  revert d. induction lines as [|line rest IH]; intros d; simpl.
  - split; eauto.
  - rewrite andb_true_iff, <- (index_line_accepted d line). split.
    + intros [d' H].
      destruct (index_line d line) as [d1| |] eqn:E; cbn [obind] in H;
        try discriminate.
      split; [eauto|]. apply (IH d1). eauto.
    + intros [[d1 E] Hrest]. rewrite E. cbn [obind].
      now apply (IH d1).
Qed.

(** X21.  The dictionary can be built from a file exactly when the file
    can be opened and each of its lines either has fewer than four
    fields or has integers in the range of a C long as its second and
    third field; names, further fields, the order and the overlap of the
    records put no condition. *)
Theorem build_succeeds_iff (bedfile : string) (w : world) :
  (exists d, _init_dict bedfile w = (Return d, w))
  <-> exists lines, files w !! bedfile = Some lines
                    /\ forallb line_accepted lines = true.
Proof.
  split.
  - intros [d H]. apply init_dict_return in H as (lines & Hf & H & _).
    exists lines. split; [exact Hf|].
    apply (index_lines_accepted lines ∅). eauto.
  - intros (lines & Hf & H).
    apply (index_lines_accepted lines ∅) in H as [d Hd].
    exists d. unfold _init_dict, bind, open_, lift. now rewrite Hf, Hd.
Qed.

(** X22.  A bound that is an integer, but not one that fits a C long,
    stops the build with [OverflowError]: when the lines before it get
    through and both bounds of the line parse, and one of them is outside
    the range, [_init_dict] raises [OverflowError] and returns no
    dictionary. *)
Theorem bound_outside_long_fails (bedfile : string) (w : world)
    (before after : list string) (line : string) (st en : Z) :
  files w !! bedfile = Some (before ++ line :: after)%list ->
  forallb line_accepted before = true ->
  (4 <= length (fields line))%nat ->
  int_of_str (nth 1 (fields line) "") = Some st ->
  int_of_str (nth 2 (fields line) "") = Some en ->
  ~ is_long st \/ ~ is_long en ->
  _init_dict bedfile w = (Raise OverflowError, w).
Proof.
  intros Hf Hbefore Hlen Hst Hen Hout.
  apply (index_lines_accepted before ∅) in Hbefore as [d Hd].
  unfold _init_dict, bind, open_, lift. rewrite Hf.
  rewrite index_lines_app, Hd. cbn [obind index_lines].
  assert (E : index_line d line = Raise OverflowError).
  { unfold index_line, int. apply Nat.ltb_ge in Hlen.
    rewrite Hlen, Hst, Hen. cbn [obind].
    destruct (to_long_cases st) as [Es|Es]; rewrite Es; cbn [obind];
      [|reflexivity].
    destruct (to_long_cases en) as [Ee|Ee]; rewrite Ee; cbn [obind];
      [|reflexivity].
    apply to_long_return in Es as [_ Hs].
    apply to_long_return in Ee as [_ He].
    destruct Hout as [H|H]; now destruct H. }
  now rewrite E.
Qed.

Lemma bound_outside_long_fails_witness :
  _init_dict "genes.bed" (world_with genes_bed_huge "3")
  = (Raise OverflowError, world_with genes_bed_huge "3").
Proof.
  apply (bound_outside_long_fails "genes.bed" (world_with genes_bed_huge "3")
           [ tsv ["chr1"; "100"; "200"; "GENE_A"];
             tsv ["chr1"; "150"; "250"; "GENE_B"] ] []
           (tsv ["chr2"; "10"; "9223372036854775808"; "GENE_C"])
           10 9223372036854775808).
  - vm_compute. reflexivity.
  - vm_compute. reflexivity.
  - vm_compute. lia.
  - vm_compute. reflexivity.
  - vm_compute. reflexivity.
  - right. unfold is_long. vm_compute. intros [_ H]. now apply H.
Defined.
